(** * Trend farmer: the fetch / extract workflow of [02_trend_farmer/notebook.ipynb]

    A shallow embedding of the two workflow nodes [fetch_page_node] and
    [extract_videos_node], of the state they update, and of the library
    calls they make (Python's [int] and [str.strip], BeautifulSoup's
    [find], [find_all], [find_parent], [get] and [get_text], requests'
    [raise_for_status]).

    Conventions.
    - Python [str] is [string]; a character is a code point below 256.
    - Python [int] is [Z].
    - A computation that may raise has type [result A].
    - The HTTP layer, the clock and the HTML parser are inputs of the
      nodes: the nodes are functions of what those calls answer. *)

From Stdlib Require Import List String Ascii ZArith Bool Lia DecimalString.
Import ListNotations.
Local Open Scope string_scope.
Local Open Scope list_scope.
Local Open Scope nat_scope.

(** ** Exceptions *)

Module Py.

(** An exception object: its class name and [str(e)]. Every class the
    model raises derives from [Exception], so [except Exception] catches
    all of them. *)
Record PyException : Type := mkExc { exc_class : string; exc_str : string }.

Inductive result (A : Type) : Type :=
| Return (a : A)
| Raise (e : PyException).
Arguments Return {A} a.
Arguments Raise {A} e.

Definition bind {A B : Type} (c : result A) (k : A -> result B) : result B :=
  match c with
  | Return a => k a
  | Raise e => Raise e
  end.

(** [try: body / except Exception as e: handler e] *)
Definition try_except {A : Type} (body : result A)
    (handler : PyException -> result A) : result A :=
  match body with
  | Return a => Return a
  | Raise e => handler e
  end.

(** ** Strings *)

Definition code (c : ascii) : nat := nat_of_ascii c.

(** [str.isspace] on one character (also what [re]'s [\s] matches). *)
Definition isspace (c : ascii) : bool :=
  let n := code c in
  ((9 <=? n) && (n <=? 13)) || ((28 <=? n) && (n <=? 32))
  || (n =? 133) || (n =? 160).

(** C [Py_ISSPACE]: the white space [int] skips around an ASCII literal. *)
Definition c_isspace (c : ascii) : bool :=
  let n := code c in ((9 <=? n) && (n <=? 13)) || (n =? 32).

Definition isdigit (c : ascii) : bool :=
  let n := code c in (48 <=? n) && (n <=? 57).

Fixpoint dropWhile {A : Type} (p : A -> bool) (l : list A) : list A :=
  match l with
  | [] => []
  | x :: r => if p x then dropWhile p r else l
  end.

Definition strip_with (sp : ascii -> bool) (l : list ascii) : list ascii :=
  rev (dropWhile sp (rev (dropWhile sp l))).

(** [s.strip()] *)
Definition strip (s : string) : string :=
  string_of_list_ascii (strip_with isspace (list_ascii_of_string s)).

(** [sep.join(parts)] *)
Fixpoint join (sep : string) (parts : list string) : string :=
  match parts with
  | [] => ""
  | [p] => p
  | p :: r => (p ++ sep ++ join sep r)%string
  end.

(** [re.findall(r"\S+", s)]: the maximal runs of non-space characters. *)
Fixpoint split_ws_aux (cur : list ascii) (l : list ascii) : list string :=
  match l with
  | [] => match cur with
          | [] => []
          | _ => [string_of_list_ascii (rev cur)]
          end
  | c :: r =>
      if isspace c then
        match cur with
        | [] => split_ws_aux [] r
        | _ => string_of_list_ascii (rev cur) :: split_ws_aux [] r
        end
      else split_ws_aux (c :: cur) r
  end.

Definition split_ws (s : string) : list string :=
  split_ws_aux [] (list_ascii_of_string s).

(** A string is falsy exactly when it is empty; [None] is falsy. *)
Definition truthy (o : option string) : bool :=
  match o with
  | Some s => negb (String.eqb s "")
  | None => false
  end.

(** ** [int(text)] for a [str] argument, base 10 *)

(** The digits of a literal: digits with single underscores between
    them. [prev] tells that the previous character was a digit; [n]
    counts the digits read. *)
Fixpoint int_digits (acc : Z) (n : nat) (prev : bool) (l : list ascii)
  : option (Z * nat) :=
  match l with
  | [] => if prev then Some (acc, n) else None
  | c :: r =>
      if isdigit c then
        int_digits (10 * acc + Z.of_nat (code c - 48)) (S n) true r
      else if (code c =? 95) && prev then int_digits acc n false r
      else None
  end.

(** Before parsing, a literal with a character above 127 has its
    Unicode white space replaced by a blank; any other character from
    127 up that is not a decimal digit makes the literal invalid (no
    code point in 127..255 is a decimal digit). *)
Definition has_non_ascii (l : list ascii) : bool :=
  existsb (fun c => 128 <=? code c) l.

Fixpoint to_ascii_literal (l : list ascii) : option (list ascii) :=
  match l with
  | [] => Some []
  | c :: r =>
      if code c <? 127 then option_map (cons c) (to_ascii_literal r)
      else if isspace c then option_map (cons " "%char) (to_ascii_literal r)
      else None
  end.

Definition int_sign (l : list ascii) : Z * list ascii :=
  match l with
  | c :: r =>
      if code c =? 43 then (1%Z, r)
      else if code c =? 45 then ((-1)%Z, r)
      else (1%Z, l)
  | [] => (1%Z, l)
  end.

(** [sys.get_int_max_str_digits()], the default. *)
Definition max_str_digits : nat := 4300.

Definition parse_int (s : string) : option Z :=
  let l := list_ascii_of_string s in
  match (if has_non_ascii l then to_ascii_literal l else Some l) with
  | None => None
  | Some l1 =>
      let '(sign, body) := int_sign (dropWhile c_isspace l1) in
      let digits := rev (dropWhile c_isspace (rev body)) in
      match int_digits 0 0 false digits with
      | Some (v, n) =>
          if max_str_digits <? n then None else Some (sign * v)%Z
      | None => None
      end
  end.

(** The message quotes [repr(s)]; it is written here for a text without
    quotes or escapes. The workflow never stores this message. *)
Definition ValueError_int (s : string) : PyException :=
  mkExc "ValueError"
    ("invalid literal for int() with base 10: '" ++ s ++ "'")%string.

Definition int (s : string) : result Z :=
  match parse_int s with
  | Some z => Return z
  | None => Raise (ValueError_int s)
  end.

(** [str(n)] for an integer. *)
Definition str_of_Z (z : Z) : string := NilZero.string_of_int (Z.to_int z).

End Py.

(** ** The document tree of BeautifulSoup *)

Module Bs4.
Import Py.

(** A node of the parsed document: a tag with its attribute dictionary
    and its contents, or a piece of text. Attribute values are kept as
    written in the markup; the tree builder's split of [class] into a
    list of tokens is done where a search reads it ([attr_tokens]). The
    dictionary is an association list read by first occurrence.
    Comments and the strings of [script], [style] and [template] are
    left out of the tree: no search returns them and [get_text] skips
    them. *)
#[warnings="-register-all"]
Inductive PageElement : Type :=
| Tag (name : string) (attrs : list (string * string))
      (contents : list PageElement)
| NavigableString (text : string).

(** A tag object as the program holds it: the node and the chain of its
    [.parent] links, nearest first. *)
Record Element : Type := mkElement {
  node : PageElement;
  parents : list PageElement
}.

(** The root object returned by the [BeautifulSoup] constructor. *)
Definition soup_of (root : PageElement) : Element := mkElement root [].

(** [tag.descendants]: every node below the tag, in document order. *)
Fixpoint descendants_of (ps : list PageElement) (e : PageElement)
  : list Element :=
  match e with
  | Tag _ _ cs =>
      flat_map (fun c => mkElement c (e :: ps) :: descendants_of (e :: ps) c) cs
  | NavigableString _ => []
  end.

Definition descendants (t : Element) : list Element :=
  descendants_of (parents t) (node t).

(** [tag.parents]: the ancestors as tag objects, nearest first. *)
Fixpoint parent_chain (ps : list PageElement) : list Element :=
  match ps with
  | [] => []
  | p :: r => mkElement p r :: parent_chain r
  end.

Fixpoint lookup (k : string) (d : list (string * string)) : option string :=
  match d with
  | [] => None
  | (k', v) :: r => if String.eqb k k' then Some v else lookup k r
  end.

Definition attrs_of (e : PageElement) : list (string * string) :=
  match e with
  | Tag _ a _ => a
  | NavigableString _ => []
  end.

(** [tag.get(key, default)] *)
Definition get (t : Element) (key default : string) : string :=
  match lookup key (attrs_of (node t)) with
  | Some v => v
  | None => default
  end.

(** The values a search compares for an attribute: [class] is
    multi-valued (its white-space separated tokens), the other
    attributes this program searches hold one string. *)
Definition attr_tokens (key value : string) : list string :=
  if String.eqb key "class" then split_ws value else [value].

Definition mem (s : string) (l : list string) : bool :=
  existsb (String.eqb s) l.

(** One search criterion on an attribute, given the alternatives it
    accepts (a single string is a one-element list). The attribute
    matches when one of its tokens is an alternative or, failing that
    and unless there is exactly one token, when the tokens joined by a
    blank are an alternative. A missing attribute matches no
    (non-empty) alternative. *)
Definition attr_matches (d : list (string * string)) (key : string)
    (alternatives : list string) : bool :=
  match lookup key d with
  | None => false
  | Some v =>
      let toks := attr_tokens key v in
      existsb (fun t => mem t alternatives) toks
      || (negb (List.length toks =? 1) && mem (join " " toks) alternatives)
  end.

(** The arguments of a search: a tag name and criteria on attributes. *)
Record Strainer : Type := mkStrainer {
  s_name : string;
  s_attrs : list (string * list string)
}.

Definition matches (q : Strainer) (e : PageElement) : bool :=
  match e with
  | Tag n d _ =>
      String.eqb n (s_name q)
      && forallb (fun c => attr_matches d (fst c) (snd c)) (s_attrs q)
  | NavigableString _ => false
  end.

Definition matches_elt (q : Strainer) (t : Element) : bool :=
  matches q (node t).

(** [tag.find_all(name, attrs)] *)
Definition find_all (q : Strainer) (t : Element) : list Element :=
  filter (matches_elt q) (descendants t).

(** [tag.find(name, attrs)]: the first result of [find_all], or [None]. *)
Definition find (q : Strainer) (t : Element) : option Element :=
  List.find (matches_elt q) (descendants t).

(** [tag.find_parent(name, attrs)]: the nearest ancestor that matches. *)
Definition find_parent (q : Strainer) (t : Element) : option Element :=
  List.find (matches_elt q) (parent_chain (parents t)).

Definition text_of (t : Element) : option string :=
  match node t with
  | NavigableString s => Some s
  | Tag _ _ _ => None
  end.

(** [tag.get_text(strip=True)]: the strings below the tag, each one
    stripped, the empty ones left out, concatenated. *)
Definition get_text_strip (t : Element) : string :=
  let strings :=
    flat_map (fun d => match text_of d with
                       | Some s => [strip s]
                       | None => []
                       end) (descendants t) in
  String.concat "" (filter (fun s => negb (String.eqb s "")) strings).

End Bs4.

(** ** The HTTP layer of [requests] *)

Module Requests.
Import Py.

Record Response : Type := mkResponse {
  status_code : Z;
  reason : string;
  response_url : string;
  text : string
}.

(** [response.raise_for_status()]: an [HTTPError] for a 4xx or a 5xx
    status, nothing otherwise. *)
Definition raise_for_status (r : Response) : result unit :=
  let msg (kind : string) :=
    (str_of_Z (status_code r) ++ kind ++ reason r
       ++ " for url: " ++ response_url r)%string in
  if ((400 <=? status_code r) && (status_code r <? 500))%Z then
    Raise (mkExc "HTTPError" (msg " Client Error: "))
  else if ((500 <=? status_code r) && (status_code r <? 600))%Z then
    Raise (mkExc "HTTPError" (msg " Server Error: "))
  else Return tt.

End Requests.

(** ** Data model *)

Module Workflow.
Import Py Bs4 Requests.

Record TrendingVideo : Type := mkTrendingVideo {
  title : string;
  channel : string;
  thumbnail_url : string;
  video_url : string;
  rank : Z
}.

(** [WorkflowState]: every key is present; [None] is Python's [None]. *)
Record WorkflowState : Type := mkState {
  url : string;
  raw_html : option string;
  trending_videos : list TrendingVideo;
  error : option string;
  timestamp : option string
}.

(** The dictionary a node returns: [None] for a key it leaves out. No
    node returns the key [url], and no node stores [None] under a key. *)
Record Update : Type := mkUpdate {
  upd_raw_html : option string;
  upd_trending_videos : option (list TrendingVideo);
  upd_error : option string;
  upd_timestamp : option string
}.

Definition or_keep {A : Type} (new : option A) (old : A) : A :=
  match new with
  | Some v => v
  | None => old
  end.

(** How the graph applies a node's dictionary to the state: the state
    schema declares no reducer, so a returned key overwrites the
    channel and the other channels keep their value. *)
Definition apply_update (s : WorkflowState) (u : Update) : WorkflowState :=
  mkState (url s)
          (match upd_raw_html u with Some h => Some h | None => raw_html s end)
          (or_keep (upd_trending_videos u) (trending_videos s))
          (match upd_error u with Some e => Some e | None => error s end)
          (match upd_timestamp u with Some t => Some t | None => timestamp s end).

(** ** [fetch_page_node] *)

(** [get] stands for [requests.get(url, headers=headers, timeout=10)]:
    the response, or the exception of a connection failure or of the
    timeout. [now] is [datetime.now().isoformat()]. *)
Definition fetch_page_node (get : string -> result Response) (now : string)
    (state : WorkflowState) : result Update :=
  try_except
    (bind (get (url state)) (fun response =>
     bind (raise_for_status response) (fun _ =>
     Return (mkUpdate (Some (text response)) None None (Some now)))))
    (fun e =>
       Return (mkUpdate None None
                 (Some ("Failed to fetch page: " ++ exc_str e)%string)
                 (Some now))).

(** ** The local variables of [extract_videos_node] that its loop updates *)

Record Locals : Type := mkLocals {
  videos : list TrendingVideo;
  rank_var : option Z     (* [None]: [rank] is not bound yet *)
}.

(** A statement: it runs on the locals, returns or raises, and leaves
    the locals as they are at that point. *)
Definition Stmt (A : Type) : Type := Locals -> result A * Locals.

Definition ret {A : Type} (a : A) : Stmt A := fun l => (Return a, l).

Definition seq {A B : Type} (c : Stmt A) (k : A -> Stmt B) : Stmt B :=
  fun l =>
    match c l with
    | (Return a, l') => k a l'
    | (Raise e, l') => (Raise e, l')
    end.

Definition lift {A : Type} (r : result A) : Stmt A := fun l => (r, l).

Definition try_stmt {A : Type} (body : Stmt A)
    (handler : PyException -> Stmt A) : Stmt A :=
  fun l =>
    match body l with
    | (Return a, l') => (Return a, l')
    | (Raise e, l') => handler e l'
    end.

Declare Scope stmt_scope.
Delimit Scope stmt_scope with stmt.
Notation "x <- c ;; k" := (seq c (fun x => k))
  (at level 61, c at next level, right associativity) : stmt_scope.
Notation "c ;;; k" := (seq c (fun _ => k))
  (at level 61, right associativity) : stmt_scope.

Definition UnboundLocalError (name : string) : PyException :=
  mkExc "UnboundLocalError"
    ("cannot access local variable '" ++ name
       ++ "' where it is not associated with a value")%string.

(** Reading [rank]. *)
Definition load_rank : Stmt Z :=
  fun l =>
    match rank_var l with
    | Some r => (Return r, l)
    | None => (Raise (UnboundLocalError "rank"), l)
    end.

(** [rank = r] *)
Definition store_rank (r : Z) : Stmt unit :=
  fun l => (Return tt, mkLocals (videos l) (Some r)).

Definition load_videos : Stmt (list TrendingVideo) :=
  fun l => (Return (videos l), l).

(** [videos.append(video)] *)
Definition videos_append (v : TrendingVideo) : Stmt unit :=
  fun l => (Return tt, mkLocals (videos l ++ [v]) (rank_var l)).

(** [for item in items: body item] *)
Fixpoint for_each (items : list Element) (body : Element -> Stmt unit)
  : Stmt unit :=
  match items with
  | [] => ret tt
  | item :: rest => seq (body item) (fun _ => for_each rest body)
  end.

(** ** [extract_videos_node] *)

(** [BeautifulSoup(markup, "html.parser")]. [parser] stands for the
    tree builder: the top-level nodes of the document, or the exception
    it raises. A markup that is [None] is rejected with a [TypeError]
    before any parsing. *)
Definition BeautifulSoup (parser : string -> result (list PageElement))
    (markup : option string) : result Element :=
  match markup with
  | None =>
      Raise (mkExc "TypeError"
        ("Incoming markup is of an invalid type: None. Markup must be "
         ++ "a string, a bytestring, or an open filehandle.")%string)
  | Some s =>
      bind (parser s) (fun nodes => Return (soup_of (Tag "[document]" [] nodes)))
  end.

(** The searches of the node, in the order of the source. *)
Definition all_header_q : Strainer :=
  mkStrainer "h3" [("id", ["group-all"])].
Definition all_section_q : Strainer :=
  mkStrainer "section" [("class", ["page-section"])].
Definition video_list_q : Strainer :=
  mkStrainer "ol" [("aria-labelledby", ["group-all"]); ("class", ["video-list"])].
Definition video_item_q : Strainer :=
  mkStrainer "li" [("class", ["video-item"])].
Definition rank_span_q : Strainer :=
  mkStrainer "span"
    [("class", ["text-slate-400"; "font-semibold"; "text-xl"; "p-4"])].
Definition video_link_q : Strainer :=
  mkStrainer "a" [("class", ["video-link"])].
Definition thumbnail_q : Strainer :=
  mkStrainer "img" [("class", ["thumbnail"])].
Definition title_q : Strainer :=
  mkStrainer "h4" [("class", ["vc-title"])].
Definition info_q : Strainer :=
  mkStrainer "p" [("class", ["text-sm"; "text-slate-500"])].
Definition channel_span_q : Strainer :=
  mkStrainer "span" [("class", ["font-medium"])].

(** The channel of an entry, from its link. *)
Definition channel_of (video_link : Element) : string :=
  match find info_q video_link with
  | Some info_p =>
      let channel_spans := find_all channel_span_q info_p in
      if 2 <=? List.length channel_spans then
        match nth_error channel_spans 1 with
        | Some sp => get_text_strip sp
        | None => ""
        end
      else ""
  | None => ""
  end.

Definition thumbnail_of (video_link : Element) : string :=
  match find thumbnail_q video_link with
  | Some thumbnail_img => get thumbnail_img "src" ""
  | None => ""
  end.

Definition title_of (video_link : Element) : string :=
  match find title_q video_link with
  | Some title_elem => get_text_strip title_elem
  | None => "No title"
  end.

Local Open Scope stmt_scope.

(** The [try] block of one iteration. Leaving it by [continue] and
    reaching its end are the same: nothing follows it in the loop. *)
Definition item_try (item : Element) : Stmt unit :=
  r <- match find rank_span_q item with
       | Some rank_span => lift (int (get_text_strip rank_span))
       | None => vs <- load_videos ;; ret (Z.of_nat (List.length vs) + 1)%Z
       end ;;
  store_rank r ;;;
  match find video_link_q item with
  | None => ret tt
  | Some video_link =>
      let video_url := get video_link "href" "" in
      let thumbnail_url := thumbnail_of video_link in
      let title := title_of video_link in
      let channel := channel_of video_link in
      rank <- load_rank ;;
      videos_append (mkTrendingVideo title channel thumbnail_url video_url rank)
  end.

(** The [except] block of one iteration: the message it prints reads
    [rank]; what is printed is not part of the state. *)
Definition item_except (e : PyException) : Stmt unit :=
  _ <- load_rank ;; ret tt.

Definition loop_body (item : Element) : Stmt unit :=
  try_stmt (item_try item) item_except.

Local Close Scope stmt_scope.

Definition structure_error (msg : string) : Update :=
  mkUpdate None (Some []) (Some msg) None.

(** The outer [try] block. *)
Definition extract_try (parser : string -> result (list PageElement))
    (state : WorkflowState) : result Update :=
  bind (BeautifulSoup parser (raw_html state)) (fun soup =>
  let locals0 := mkLocals [] None in
  match find all_header_q soup with
  | None => Return (structure_error "Could not find the 'All' section header")
  | Some all_header =>
  match find_parent all_section_q all_header with
  | None => Return (structure_error "Could not find the 'All' section container")
  | Some all_section =>
  match find video_list_q all_section with
  | None => Return (structure_error "Could not find video list in 'All' section")
  | Some video_list =>
      let video_items := find_all video_item_q video_list in
      match for_each (firstn 20 video_items) loop_body locals0 with
      | (Return _, l) => Return (mkUpdate None (Some (videos l)) None None)
      | (Raise e, _) => Raise e
      end
  end end end).

Definition extract_videos_node (parser : string -> result (list PageElement))
    (state : WorkflowState) : result Update :=
  if truthy (error state) then Return (mkUpdate None (Some []) None None)
  else
    try_except (extract_try parser state)
      (fun e =>
         Return (mkUpdate None (Some [])
                   (Some ("Failed to extract videos: " ++ exc_str e)%string)
                   None)).

(** ** The graph: [START -> fetch_page -> extract_videos -> END] *)

Definition after_fetch (get : string -> result Response) (now : string)
    (s0 : WorkflowState) : result WorkflowState :=
  bind (fetch_page_node get now s0) (fun u => Return (apply_update s0 u)).

Definition after_extract (parser : string -> result (list PageElement))
    (s1 : WorkflowState) : result WorkflowState :=
  bind (extract_videos_node parser s1) (fun u => Return (apply_update s1 u)).

Definition invoke (get : string -> result Response) (now : string)
    (parser : string -> result (list PageElement))
    (s0 : WorkflowState) : result WorkflowState :=
  bind (after_fetch get now s0) (after_extract parser).

(** ** Vocabulary of the properties *)

(** The record the loop appends for an entry whose link is [video_link]
    and whose rank is [r]. *)
Definition record_of (video_link : Element) (r : Z) : TrendingVideo :=
  mkTrendingVideo (title_of video_link) (channel_of video_link)
    (thumbnail_of video_link) (get video_link "href" "") r.

(** The value of the right-hand side of [rank = ...] when [vs] is the
    list accumulated so far. *)
Definition rank_expr (item : Element) (vs : list TrendingVideo) : result Z :=
  match find rank_span_q item with
  | Some rank_span => int (get_text_strip rank_span)
  | None => Return (Z.of_nat (List.length vs) + 1)%Z
  end.

(** The three landmarks are found, and [video_list] is the list. *)
Definition landmarks (soup video_list : Element) : Prop :=
  exists all_header all_section,
    find all_header_q soup = Some all_header
    /\ find_parent all_section_q all_header = Some all_section
    /\ find video_list_q all_section = Some video_list.

(** One of the three landmarks is not found. *)
Definition missing_landmark (soup : Element) : Prop :=
  find all_header_q soup = None
  \/ (exists all_header,
        find all_header_q soup = Some all_header
        /\ (find_parent all_section_q all_header = None
            \/ exists all_section,
                 find_parent all_section_q all_header = Some all_section
                 /\ find video_list_q all_section = None)).

(** The markup of the state parses and has the landmarks. *)
Definition well_formed_markup (parser : string -> result (list PageElement))
    (state : WorkflowState) (video_list : Element) : Prop :=
  exists soup,
    BeautifulSoup parser (raw_html state) = Return soup
    /\ landmarks soup video_list.

(** The entry at document position [i] (from 0) is well formed: it has a
    link, and its rank label, when it has one, reads [i + 1]. *)
Definition well_formed_entry (i : nat) (item : Element) : Prop :=
  (exists video_link, find video_link_q item = Some video_link)
  /\ (find rank_span_q item = None
      \/ exists rank_span,
           find rank_span_q item = Some rank_span
           /\ int (get_text_strip rank_span) = Return (Z.of_nat i + 1)%Z).

(** The same as a test, and the test over a list of entries whose
    first one is at position [k]. *)
Definition well_formed_entryb (i : nat) (item : Element) : bool :=
  match find video_link_q item with
  | Some _ => true
  | None => false
  end
  && match find rank_span_q item with
     | None => true
     | Some rank_span =>
         match int (get_text_strip rank_span) with
         | Return z => Z.eqb z (Z.of_nat i + 1)
         | Raise _ => false
         end
     end.

Fixpoint well_formed_entries_from (k : nat) (items : list Element) : bool :=
  match items with
  | [] => true
  | item :: rest =>
      well_formed_entryb k item && well_formed_entries_from (S k) rest
  end.

(** The [try] block of [fetch_page_node] raises [e]. *)
Definition fetch_failed (get : string -> result Response)
    (state : WorkflowState) (e : PyException) : Prop :=
  get (url state) = Raise e
  \/ exists response,
       get (url state) = Return response
       /\ raise_for_status response = Raise e.

(** A dictionary of the extractor: it has the key [trending_videos], not
    the keys [raw_html] and [timestamp], and when it has the key [error]
    the message is not empty and the list is. *)
Definition extractor_update (u : Update) : Prop :=
  upd_raw_html u = None
  /\ upd_timestamp u = None
  /\ exists vs,
       upd_trending_videos u = Some vs
       /\ (upd_error u = None
           \/ (vs = [] /\ exists msg, upd_error u = Some msg /\ msg <> "")).

(** The record [v] was built from an entry of [items] that has a link,
    and its [video_url] is what [get("href", "")] answers on that link. *)
Definition from_linked_entry (items : list Element) (v : TrendingVideo) : Prop :=
  exists item video_link,
    In item items
    /\ find video_link_q item = Some video_link
    /\ video_url v = get video_link "href" "".

End Workflow.

(** ** Sample documents *)

Module Samples.
Import Py Bs4 Requests Workflow.

Definition rank_label (t : string) : PageElement :=
  Tag "span" [("class", "text-slate-400 font-semibold text-xl p-4")]
    [NavigableString t].

Definition info_paragraph (spans : list string) : PageElement :=
  Tag "p" [("class", "text-sm text-slate-500")]
    (map (fun s => Tag "span" [("class", "font-medium")] [NavigableString s])
         spans).

Definition link_to (href : option string) (title : string)
    (spans : list string) : PageElement :=
  Tag "a"
    (("class", "video-link")
       :: match href with Some h => [("href", h)] | None => [] end)
    [Tag "img" [("class", "thumbnail"); ("src", "t.jpg")] [];
     Tag "h4" [("class", "vc-title")] [NavigableString title];
     info_paragraph spans].

Definition entry (label : option string) (link : option PageElement)
  : PageElement :=
  Tag "li" [("class", "video-item")]
    (match label with Some t => [rank_label t] | None => [] end
     ++ match link with Some a => [a] | None => [] end).

Definition video_list_of (entries : list PageElement) : PageElement :=
  Tag "ol" [("aria-labelledby", "group-all"); ("class", "video-list")] entries.

Definition section_of (entries : list PageElement) : PageElement :=
  Tag "section" [("class", "page-section")]
    [Tag "h3" [("id", "group-all")] [NavigableString "All"];
     video_list_of entries].

Definition html_of (entries : list PageElement) : PageElement :=
  Tag "html" [] [Tag "body" [] [section_of entries]].

Definition page (entries : list PageElement) : list PageElement :=
  [html_of entries].

(** The list of [page entries] as the node finds it, with its parents. *)
Definition video_list_in_page (entries : list PageElement) : Element :=
  mkElement (video_list_of entries)
    [section_of entries;
     Tag "body" [] [section_of entries];
     html_of entries;
     Tag "[document]" [] (page entries)].

(** A page without the section header. *)
Definition page_without_header : list PageElement :=
  [Tag "html" [] [Tag "body" [] [Tag "p" [] [NavigableString "moved"]]]].

(** A tree builder that answers [nodes] for every markup. *)
Definition parser_giving (nodes : list PageElement)
  : string -> result (list PageElement) :=
  fun _ => Return nodes.

Definition trends_url : string := "https://youtube.trends24.in/".

(** The initial state of the notebook's run. *)
Definition initial_state : WorkflowState :=
  mkState trends_url None [] None None.

(** The state after a fetch that succeeded at time [t0]. *)
Definition t0 : string := "2025-06-30T21:06:50.499310".
Definition fetched_state : WorkflowState :=
  mkState trends_url (Some "<html>...</html>") [] None (Some t0).

Definition get_ok : string -> result Response :=
  fun u => Return (mkResponse 200 "OK" u "<html>...</html>").
Definition get_503 : string -> result Response :=
  fun u => Return (mkResponse 503 "Service Unavailable" u "busy").

(** One entry whose link has no [href]. *)
Definition entries_no_href : list PageElement :=
  [entry (Some "1") (Some (link_to None "First" ["by"; "Someone"]))].

(** The first entry has the rank label [abc]; the second is in order. *)
Definition entries_bad_first : list PageElement :=
  [entry (Some "abc") (Some (link_to (Some "/v/1") "First" ["by"; "A"]));
   entry (Some "2") (Some (link_to (Some "/v/2") "Second" ["by"; "B"]))].

(** The second entry has the rank label [abc]; the others are in order. *)
Definition entries_bad_second : list PageElement :=
  [entry (Some "1") (Some (link_to (Some "/v/1") "First" ["by"; "A"]));
   entry (Some "abc") (Some (link_to (Some "/v/2") "Second" ["by"; "B"]));
   entry (Some "3") (Some (link_to (Some "/v/3") "Third" ["by"; "C"]))].

(** Entries without rank labels; the second has no link. *)
Definition entries_unlabelled : list PageElement :=
  [entry None (Some (link_to (Some "/v/1") "First" ["by"; "A"]));
   entry None None;
   entry None (Some (link_to (Some "/v/3") "Third" ["by"]))].

(** [n] entries labelled 1 to [n]. *)
Definition numbered_entry (i : nat) : PageElement :=
  entry (Some (str_of_Z (Z.of_nat (S i))))
        (Some (link_to (Some ("/v/" ++ str_of_Z (Z.of_nat (S i)))%string)
                       "Video" ["by"; "Channel"])).
Definition numbered_entries (n : nat) : list PageElement :=
  map numbered_entry (List.seq 0 n).

(** An entry without a rank label, as a tag object, and its link. *)
Definition unlabelled_entry : PageElement :=
  entry None (Some (link_to (Some "/v/9") "Ninth" ["by"; "I"])).
Definition unlabelled_item : Element := mkElement unlabelled_entry [].
Definition unlabelled_link : Element :=
  mkElement (link_to (Some "/v/9") "Ninth" ["by"; "I"]) [unlabelled_entry].

(** The state after fetching the page of 25 numbered entries. *)
Definition page_of_25 : list PageElement := page (numbered_entries 25).

(** An entry whose info paragraph has a single medium-emphasis span,
    as a tag object, with its link and its info paragraph. *)
Definition one_span_link : PageElement := link_to (Some "/v/7") "Seventh" ["by"].
Definition one_span_entry : PageElement := entry (Some "7") (Some one_span_link).
Definition one_span_item : Element := mkElement one_span_entry [].
Definition one_span_link_elt : Element := mkElement one_span_link [one_span_entry].
Definition one_span_info : Element :=
  mkElement (info_paragraph ["by"]) [one_span_link; one_span_entry].

(** A state with the markup and error of [fetched_state] and other
    values in the fields the extractor does not read. *)
Definition fetched_state_later : WorkflowState :=
  mkState "https://example.org/" (Some "<html>...</html>")
    [mkTrendingVideo "Old" "" "" "/v/0" 1] None None.

(** Locals in the middle of a run: two records so far, [rank] bound. *)
Definition two_records : Locals :=
  mkLocals [mkTrendingVideo "First" "A" "t.jpg" "/v/1" 1;
            mkTrendingVideo "Second" "B" "t.jpg" "/v/2" 2] (Some 2%Z).

End Samples.

(** ** The other cells of the notebook *)

Module Notebook.
Import Py Bs4 Requests Workflow.

(** *** Loading the environment *)





(** The dictionary python-dotenv builds from the bindings of the
    [.env] file before it touches the environment. [bindings] are the
    bindings in the order of the file, with their values as resolved (a
    name without a value is [None]; no file is the empty list). *)










(** *** Testing the workflow *)

(** [f"{x}"] for an optional string. *)
Definition format_optional (o : option string) : string :=
  match o with
  | Some s => s
  | None => "None"
  end.

(** [s * n] *)
Fixpoint str_mul (s : string) (n : nat) : string :=
  match n with
  | 0 => ""
  | S m => (s ++ str_mul s m)%string
  end.

Definition newline : string := String (ascii_of_nat 10) "".

(** The body of [for video in ...]: the texts of its [print] calls. *)
Definition print_video (video : TrendingVideo) : list string :=
  [(str_of_Z (rank video) ++ ". " ++ title video)%string]
  ++ (if truthy (Some (video_url video))
      then [("   URL: " ++ video_url video)%string]
      else [])
  ++ [""].

(** The texts printed by the statements of the cell that follow
    [result = app.invoke(initial_state)], one per [print] call. What
    the extractor's handler prints during [invoke] comes before them
    and is not in this list. *)
Definition print_result (result : WorkflowState) : list string :=
  [("Extraction completed at: " ++ format_optional (timestamp result))%string;
   ("Error: " ++ format_optional (error result))%string;
   ("Number of videos extracted: "
      ++ str_of_Z (Z.of_nat (List.length (trending_videos result))))%string;
   (newline ++ str_mul "=" 50)%string;
   "TOP 10 TRENDING VIDEOS";
   str_mul "=" 50]
  ++ flat_map print_video (trending_videos result).

Definition initial_state : WorkflowState :=
  mkState "https://youtube.trends24.in/" None [] None None.

(** The number of records with a non-empty [video_url]. *)
Definition count_with_url (vs : list TrendingVideo) : nat :=
  List.length (filter (fun v => truthy (Some (video_url v))) vs).

End Notebook.

(** ** Vocabulary on the entries of the list *)

Module Entries.
Import Py Bs4 Requests Workflow.

(** The rank label of the entry is absent, or [int] accepts its text. *)
Definition label_ok (item : Element) : bool :=
  match find rank_span_q item with
  | None => true
  | Some rank_span =>
      match int (get_text_strip rank_span) with
      | Return _ => true
      | Raise _ => false
      end
  end.

Definition has_link (item : Element) : bool :=
  match find video_link_q item with
  | Some _ => true
  | None => false
  end.

Definition unlabelled (item : Element) : bool :=
  match find rank_span_q item with
  | None => true
  | Some _ => false
  end.

(** The entries the loop turns into records once [rank] is bound. *)
Definition emitted (item : Element) : bool := label_ok item && has_link item.

(** The label of the first entry, if there is one, is in order. *)
Definition first_label_ok (items : list Element) : bool :=
  match items with
  | [] => true
  | item :: _ => label_ok item
  end.

(** The record [v] is the one built from the entry [item]: from its
    link, with the number of its rank label when it has a label. *)
Definition built_from (v : TrendingVideo) (item : Element) : Prop :=
  exists video_link,
    find video_link_q item = Some video_link
    /\ v = record_of video_link (rank v)
    /\ forall rank_span,
         find rank_span_q item = Some rank_span ->
         int (get_text_strip rank_span) = Return (rank v).

(** The ranks [k + 1], ..., [k + n]. *)
Definition ranks_from (k n : nat) : list Z :=
  map (fun i => Z.of_nat (k + S i)) (List.seq 0 n).

(** The message of the node when the handler of the loop raised. *)
Definition rank_unbound_error : string :=
  ("Failed to extract videos: "
     ++ exc_str (UnboundLocalError "rank"))%string.

End Entries.

(** ** More sample data *)

Module MoreSamples.
Import Py Bs4 Requests Workflow Samples.

(** A link whose title element holds white space only and whose image
    has no [src]. *)
Definition blank_title_link : PageElement :=
  Tag "a" [("class", "video-link"); ("href", "/v/4")]
    [Tag "img" [("class", "thumbnail")] [];
     Tag "h4" [("class", "vc-title")] [NavigableString "  "]].
Definition blank_title_entry : PageElement :=
  entry (Some "4") (Some blank_title_link).
Definition blank_title_item : Element := mkElement blank_title_entry [].
Definition blank_title_link_elt : Element :=
  mkElement blank_title_link [blank_title_entry].

(** Entries whose labels are in order except the third, the second
    having no link. *)
Definition entries_mixed : list PageElement :=
  [entry (Some "5") (Some (link_to (Some "/v/1") "First" ["by"; "A"]));
   entry (Some "6") None;
   entry (Some "n/a") (Some (link_to (Some "/v/3") "Third" ["by"; "C"]));
   entry None (Some (link_to (Some "/v/4") "Fourth" ["by"; "D"]))].

Definition get_status (code : Z) : string -> result Response :=
  fun u => Return (mkResponse code "" u "body").

(** An entry without a rank label whose title holds a span that
    carries one of the classes of the rank label. *)
Definition badge : PageElement :=
  Tag "span" [("class", "badge font-semibold")] [NavigableString "New"].
Definition badge_link : PageElement :=
  Tag "a" [("class", "video-link"); ("href", "/v/8")]
    [Tag "h4" [("class", "vc-title")] [badge; NavigableString "Eighth"]].
Definition badge_entry : PageElement := entry None (Some badge_link).
Definition badge_item : Element := mkElement badge_entry [].
Definition badge_elt : Element :=
  mkElement badge
    [Tag "h4" [("class", "vc-title")] [badge; NavigableString "Eighth"];
     badge_link; badge_entry].

End MoreSamples.

(** * Properties *)

Import Py Bs4 Requests Workflow.

(** ** One iteration of the loop *)

(** What an iteration does, by the value of the rank expression: when
    [int] raises, the handler leaves the locals alone and itself raises
    if [rank] was never bound; otherwise [rank] is bound and a record is
    appended exactly when the entry has a link. *)
Lemma loop_body_eq (item : Element) (l : Locals) :
  loop_body item l =
  match rank_expr item (videos l) with
  | Raise _ =>
      (match rank_var l with
       | Some _ => Return tt
       | None => Raise (UnboundLocalError "rank")
       end, l)
  | Return r =>
      (Return tt,
       mkLocals (videos l ++ match find video_link_q item with
                             | Some video_link => [record_of video_link r]
                             | None => []
                             end)
                (Some r))
  end.
Proof.
  unfold loop_body, try_stmt, item_try, item_except, rank_expr, seq.
  destruct (find rank_span_q item) as [rank_span|].
  - unfold lift. destruct (int (get_text_strip rank_span)) as [r|e].
    + cbn. destruct (find video_link_q item) as [video_link|]; cbn.
      * reflexivity.
      * now rewrite app_nil_r.
    + unfold load_rank, ret. destruct l as [vs [r0|]]; reflexivity.
  - cbn. destruct (find video_link_q item) as [video_link|]; cbn.
    + reflexivity.
    + now rewrite app_nil_r.
Qed.

(** An iteration changes [videos] only by appending at most one record,
    built from the entry's link. *)
Lemma loop_body_videos (item : Element) (l : Locals) :
  videos (snd (loop_body item l)) = videos l
  \/ exists video_link r,
       find video_link_q item = Some video_link
       /\ videos (snd (loop_body item l)) = videos l ++ [record_of video_link r].
Proof.
  rewrite loop_body_eq.
  destruct (rank_expr item (videos l)) as [r|e]; cbn.
  - destruct (find video_link_q item) as [video_link|].
    + right. now exists video_link, r.
    + left. apply app_nil_r.
  - now left.
Qed.

(** ** The whole loop *)

Lemma for_each_cons (item : Element) (rest : list Element) (l : Locals) :
  for_each (item :: rest) loop_body l =
  match loop_body item l with
  | (Return _, l') => for_each rest loop_body l'
  | (Raise e, l') => (Raise e, l')
  end.
Proof. reflexivity. Qed.

(** The records the loop adds are at most one per entry, and each one
    comes from an entry with a link. *)
Lemma for_each_added (items : list Element) :
  forall l : Locals,
  exists added,
    videos (snd (for_each items loop_body l)) = videos l ++ added
    /\ List.length added <= List.length items
    /\ Forall (from_linked_entry items) added.
Proof.
  induction items as [|item rest IH]; intros l.
  - exists []. cbn. rewrite app_nil_r. repeat split; auto.
  - rewrite for_each_cons.
    assert (Hmono : forall vs, Forall (from_linked_entry rest) vs ->
                               Forall (from_linked_entry (item :: rest)) vs).
    { intros vs. apply Forall_impl. intros v (it & lk & Hin & Hlk & Hu).
      exists it, lk. repeat split; auto. now right. }
    destruct (loop_body_videos item l) as [Hsame | (lk & r & Hlk & Happ)];
      destruct (loop_body item l) as [[[]|e] l1]; cbn [snd] in *.
    + destruct (IH l1) as (added & Hv & Hlen & Hall).
      exists added. rewrite Hv, Hsame. cbn. repeat split; auto.
    + exists []. rewrite Hsame, app_nil_r. cbn. repeat split; auto. lia.
    + destruct (IH l1) as (added & Hv & Hlen & Hall).
      exists (record_of lk r :: added).
      rewrite Hv, Happ, <- app_assoc. cbn. repeat split; auto; try lia.
      constructor; auto.
      exists item, lk. repeat split; auto. now left.
    + exists [record_of lk r]. cbn. repeat split; auto; try lia.
      constructor; auto.
      exists item, lk. repeat split; auto. now left.
Qed.

(** ** The node on a markup that has the landmarks *)

Lemma extract_try_landmarks parser (state : WorkflowState) (video_list : Element) :
  well_formed_markup parser state video_list ->
  extract_try parser state =
  match for_each (firstn 20 (find_all video_item_q video_list)) loop_body
                 (mkLocals [] None) with
  | (Return _, l) => Return (mkUpdate None (Some (videos l)) None None)
  | (Raise e, _) => Raise e
  end.
Proof.
  intros (soup & Hsoup & all_header & all_section & Hh & Hs & Hl).
  unfold extract_try. rewrite Hsoup. cbn [bind].
  now rewrite Hh, Hs, Hl.
Qed.

(** The sample pages have the landmarks, whatever their entries. *)
Lemma sample_page_well_formed (entries : list PageElement) :
  well_formed_markup (Samples.parser_giving (Samples.page entries))
    Samples.fetched_state (Samples.video_list_in_page entries).
Proof.
  eexists. split; [reflexivity|].
  eexists. eexists. repeat split; reflexivity.
Qed.

(** ** C1 *)

(** C1, as stated, fails: on a fetched page that has the three
    landmarks and one entry whose link has no [href], the node returns
    one record whose [video_url] is empty. *)
Lemma C1_counterexample_empty_video_url :
  truthy (error Samples.fetched_state) = false
  /\ (exists video_list,
        well_formed_markup
          (Samples.parser_giving (Samples.page Samples.entries_no_href))
          Samples.fetched_state video_list)
  /\ exists v,
       extract_videos_node
         (Samples.parser_giving (Samples.page Samples.entries_no_href))
         Samples.fetched_state
       = Return (mkUpdate None (Some [v]) None None)
       /\ video_url v = "".
Proof.
  split; [reflexivity|]. split.
  - eexists. apply sample_page_well_formed.
  - eexists. split; reflexivity.
Qed.

(** C1 (amended): for every state without an incoming error whose
    markup parses and has the three landmarks, the node returns, its
    [trending_videos] holds at most 20 records, and every record was
    built from one of the first 20 entries that has a link, its
    [video_url] being the link's [href], or the empty string when the
    link has none. *)
Theorem C1_at_most_20_records_from_linked_entries
    parser (state : WorkflowState) (video_list : Element) :
  truthy (error state) = false ->
  well_formed_markup parser state video_list ->
  exists u vs,
    extract_videos_node parser state = Return u
    /\ upd_trending_videos u = Some vs
    /\ List.length vs <= 20
    /\ Forall (from_linked_entry (firstn 20 (find_all video_item_q video_list))) vs.
Proof.
  intros Herr Hwf. unfold extract_videos_node. rewrite Herr.
  rewrite (extract_try_landmarks _ _ _ Hwf).
  pose proof (firstn_le_length 20 (find_all video_item_q video_list)) as H20.
  set (items := firstn 20 (find_all video_item_q video_list)) in *.
  clearbody items.
  destruct (for_each_added items (mkLocals [] None)) as (added & Hv & Hlen & Hall).
  destruct (for_each items loop_body (mkLocals [] None)) as [[[]|e] l];
    cbn [snd videos app try_except] in *.
  - eexists. exists (videos l). rewrite Hv.
    repeat split; auto. lia.
  - eexists. exists []. repeat split; auto. cbn. lia.
Qed.

(** The amended C1 on the page whose entries have no rank label. *)
Lemma C1_witness :
  exists u vs,
    extract_videos_node
      (Samples.parser_giving (Samples.page Samples.entries_unlabelled))
      Samples.fetched_state = Return u
    /\ upd_trending_videos u = Some vs
    /\ List.length vs <= 20.
Proof.
  destruct (C1_at_most_20_records_from_linked_entries
              (Samples.parser_giving (Samples.page Samples.entries_unlabelled))
              Samples.fetched_state
              (Samples.video_list_in_page Samples.entries_unlabelled)
              eq_refl (sample_page_well_formed _))
    as (u & vs & Hu & Hvs & Hlen & _).
  exists u, vs. auto.
Defined.

(** ** C2 *)

(** An item-level failure is skipped, and only it, once [rank] is bound:
    the locals are as before the iteration and the loop goes on. *)
Lemma item_failure_skipped_when_rank_bound
    (item rank_span : Element) (e : PyException) (l : Locals) (r0 : Z) :
  find rank_span_q item = Some rank_span ->
  int (get_text_strip rank_span) = Raise e ->
  rank_var l = Some r0 ->
  loop_body item l = (Return tt, l).
Proof.
  intros Hs Hi Hr. rewrite loop_body_eq. unfold rank_expr.
  now rewrite Hs, Hi, Hr.
Qed.

(** C2 (the code at the failing input): the first entry of the list has
    the rank label [abc] and the second entry is in order; [int] raises
    in the first iteration, the handler reads [rank] before any
    assignment and raises itself, and the node reports a run-level
    error with no record at all. *)
Theorem C2_first_entry_failure_sets_run_error :
  extract_videos_node
    (Samples.parser_giving (Samples.page Samples.entries_bad_first))
    Samples.fetched_state
  = Return (mkUpdate None (Some [])
      (Some ("Failed to extract videos: cannot access local variable 'rank' "
             ++ "where it is not associated with a value")%string)
      None).
Proof. reflexivity. Qed.

(** ** C3 *)

(** C3, as stated, fails for a non-numeric label: the second entry of
    the list has the rank label [abc] and a link to [/v/2]; [int]
    rejects the label, and the node returns the records of the first
    and third entries only. *)
Lemma C3_counterexample_non_numeric_label_not_emitted :
  exists item rank_span video_link,
    nth_error
      (find_all video_item_q
         (Samples.video_list_in_page Samples.entries_bad_second)) 1
    = Some item
    /\ find rank_span_q item = Some rank_span
    /\ int (get_text_strip rank_span) = Raise (ValueError_int "abc")
    /\ find video_link_q item = Some video_link
    /\ get video_link "href" "" = "/v/2"
    /\ exists v1 v3,
         extract_videos_node
           (Samples.parser_giving (Samples.page Samples.entries_bad_second))
           Samples.fetched_state
         = Return (mkUpdate None (Some [v1; v3]) None None)
         /\ video_url v1 = "/v/1" /\ rank v1 = 1%Z
         /\ video_url v3 = "/v/3" /\ rank v3 = 3%Z.
Proof.
  eexists. eexists. eexists.
  split; [reflexivity|]. split; [reflexivity|]. split; [reflexivity|].
  split; [reflexivity|]. split; [reflexivity|].
  eexists. eexists. repeat split; reflexivity.
Qed.

(** C3 (amended): for every list entry that has a link, if its rank
    label is absent the iteration appends one record whose rank is one
    more than the number of records accumulated at that point; if its
    rank label is present and [int] rejects its text, the iteration
    appends no record and leaves the locals as they were. *)
Theorem C3_rank_fallback_for_absent_label
    (item video_link : Element) (l : Locals) :
  find video_link_q item = Some video_link ->
  (find rank_span_q item = None ->
   exists v,
     loop_body item l = (Return tt, mkLocals (videos l ++ [v]) (Some (rank v)))
     /\ v = record_of video_link (rank v)
     /\ rank v = (Z.of_nat (List.length (videos l)) + 1)%Z)
  /\ (forall rank_span e,
        find rank_span_q item = Some rank_span ->
        int (get_text_strip rank_span) = Raise e ->
        snd (loop_body item l) = l).
Proof.
  intros Hlink. split.
  - intros Hnone.
    exists (record_of video_link (Z.of_nat (List.length (videos l)) + 1)).
    rewrite loop_body_eq. unfold rank_expr. rewrite Hnone, Hlink.
    repeat split.
  - intros rank_span e Hs Hi.
    rewrite loop_body_eq. unfold rank_expr. now rewrite Hs, Hi.
Qed.

(** The amended C3 on an entry without a label, after two records. *)
Lemma C3_witness :
  exists v,
    loop_body Samples.unlabelled_item Samples.two_records
    = (Return tt,
       mkLocals (videos Samples.two_records ++ [v]) (Some (rank v)))
    /\ rank v = 3%Z.
Proof.
  destruct (C3_rank_fallback_for_absent_label
              Samples.unlabelled_item Samples.unlabelled_link
              Samples.two_records eq_refl) as [Habsent _].
  destruct (Habsent eq_refl) as (v & Hrun & _ & Hrank).
  exists v. split; [exact Hrun | exact Hrank].
Defined.

(** ** C4 *)

Lemma fetch_page_node_failed get now (s0 : WorkflowState) (e : PyException) :
  fetch_failed get s0 e ->
  fetch_page_node get now s0
  = Return (mkUpdate None None
              (Some ("Failed to fetch page: " ++ exc_str e)%string) (Some now)).
Proof.
  unfold fetch_page_node.
  intros [Hget | (response & Hget & Hstatus)]; rewrite Hget; cbn.
  - reflexivity.
  - now rewrite Hstatus.
Qed.

(** A 4xx or 5xx status makes [raise_for_status] raise. *)
Lemma raise_for_status_error_status (r : Response) :
  (400 <= status_code r < 600)%Z ->
  exists e, raise_for_status r = Raise e.
Proof.
  intros H. unfold raise_for_status.
  destruct ((400 <=? status_code r) && (status_code r <? 500))%Z eqn:H4.
  - eexists. reflexivity.
  - destruct ((500 <=? status_code r) && (status_code r <? 600))%Z eqn:H5.
    + eexists. reflexivity.
    + exfalso. rewrite andb_false_iff in H4, H5.
      rewrite !Z.leb_gt, !Z.ltb_ge in *. lia.
Qed.

(** When the [try] block of the fetch raises, the run ends in a state
    whose error is the non-empty fetch message and whose videos are
    empty; on the state the fetch leaves, the extractor answers an empty
    list and no error key whatever the parser is. *)
Lemma fetch_failure_short_circuits
    get now parser (s0 : WorkflowState) (e : PyException) :
  fetch_failed get s0 e ->
  exists s1 s2,
    after_fetch get now s0 = Return s1
    /\ error s1 = Some ("Failed to fetch page: " ++ exc_str e)%string
    /\ ("Failed to fetch page: " ++ exc_str e)%string <> ""
    /\ (forall parser',
          extract_videos_node parser' s1
          = Return (mkUpdate None (Some []) None None))
    /\ invoke get now parser s0 = Return s2
    /\ error s2 = error s1
    /\ trending_videos s2 = [].
Proof.
  intros Hfail.
  unfold invoke, after_fetch.
  rewrite (fetch_page_node_failed get now s0 e Hfail). cbn [bind].
  eexists. eexists. split; [reflexivity|].
  split; [reflexivity|]. split; [discriminate|].
  split; [intros parser'; reflexivity|].
  repeat split.
Qed.

(** C4, as stated, fails for an answered request whose status is not a
    success but is outside 400..599: with status 304 the status check
    does not raise, the fetch stores the body and sets no error, and on
    a page with the landmarks the run ends with no error and two
    videos. *)
Lemma C4_counterexample_status_304_is_not_a_failure :
  raise_for_status (mkResponse 304 "" Samples.trends_url "body") = Return tt
  /\ exists s2,
       invoke (MoreSamples.get_status 304) Samples.t0
         (Samples.parser_giving (Samples.page Samples.entries_unlabelled))
         Samples.initial_state = Return s2
       /\ raw_html s2 = Some "body"
       /\ error s2 = None
       /\ List.length (trending_videos s2) = 2.
Proof.
  split; [reflexivity|]. eexists. repeat split.
Qed.

(** C4 (amended): when the request raises (network error, timeout) or
    is answered with a status from 400 to 599, the run ends in a state
    whose error is a non-empty message and whose videos are empty; on
    the state the fetch leaves, the extractor answers an empty list and
    no error key whatever the parser is, so it neither parses nor
    overwrites the fetch error. *)
Theorem C4_request_error_or_status_4xx_5xx_short_circuits
    get now parser (s0 : WorkflowState) :
  ((exists e, get (url s0) = Raise e)
   \/ (exists response,
         get (url s0) = Return response
         /\ (400 <= status_code response < 600)%Z)) ->
  exists s1 s2 msg,
    after_fetch get now s0 = Return s1
    /\ error s1 = Some msg
    /\ msg <> ""
    /\ (forall parser',
          extract_videos_node parser' s1
          = Return (mkUpdate None (Some []) None None))
    /\ invoke get now parser s0 = Return s2
    /\ error s2 = Some msg
    /\ trending_videos s2 = [].
Proof.
  intros Hfail.
  assert (Hraise : exists e, fetch_failed get s0 e).
  { destruct Hfail as [(e & Hget) | (response & Hget & Hstatus)].
    - exists e. now left.
    - destruct (raise_for_status_error_status response Hstatus) as (e & He).
      exists e. right. now exists response. }
  destruct Hraise as (e & He).
  destruct (fetch_failure_short_circuits get now parser s0 e He)
    as (s1 & s2 & Hs1 & Herr1 & Hmsg & Hskip & Hrun & Herr2 & Hvideos).
  exists s1, s2, ("Failed to fetch page: " ++ exc_str e)%string.
  repeat split; auto. congruence.
Qed.

(** The amended C4 on a run whose request is answered with status 503. *)
Lemma C4_witness :
  exists s2 msg,
    invoke Samples.get_503 Samples.t0
      (Samples.parser_giving (Samples.page Samples.entries_unlabelled))
      Samples.initial_state = Return s2
    /\ error s2 = Some msg
    /\ msg <> ""
    /\ trending_videos s2 = [].
Proof.
  destruct (C4_request_error_or_status_4xx_5xx_short_circuits
              Samples.get_503 Samples.t0
              (Samples.parser_giving (Samples.page Samples.entries_unlabelled))
              Samples.initial_state)
    as (s1 & s2 & msg & _ & _ & Hmsg & _ & Hrun & Herr & Hvideos).
  - right. exists (mkResponse 503 "Service Unavailable" Samples.trends_url "busy").
    split; [reflexivity|]. cbn. lia.
  - exists s2, msg. repeat split; assumption.
Defined.

(** ** C5 *)

Lemma extract_try_missing_landmark parser (state : WorkflowState) (soup : Element) :
  BeautifulSoup parser (raw_html state) = Return soup ->
  missing_landmark soup ->
  exists msg,
    extract_try parser state = Return (structure_error msg) /\ msg <> "".
Proof.
  intros Hsoup Hmiss. unfold extract_try. rewrite Hsoup. cbn [bind].
  destruct Hmiss as [Hh | (h & Hh & [Hs | (sec & Hs & Hl)])]; rewrite Hh.
  - eexists. split; [reflexivity | discriminate].
  - rewrite Hs. eexists. split; [reflexivity | discriminate].
  - rewrite Hs, Hl. eexists. split; [reflexivity | discriminate].
Qed.

(** C5: when the fetch succeeds and the fetched document lacks the
    section header, or its container section, or the video list, the
    run ends with empty videos, a non-empty error and the timestamp of
    the fetch; when the run started without an error, the extractor's
    own answer is that error with an empty list. *)
Theorem C5_missing_landmark_is_structural_error
    get now parser (s0 : WorkflowState) (response : Response) (soup : Element) :
  get (url s0) = Return response ->
  raise_for_status response = Return tt ->
  BeautifulSoup parser (Some (text response)) = Return soup ->
  missing_landmark soup ->
  exists s1 s2 msg,
    after_fetch get now s0 = Return s1
    /\ invoke get now parser s0 = Return s2
    /\ trending_videos s2 = []
    /\ error s2 = Some msg
    /\ msg <> ""
    /\ timestamp s1 = Some now
    /\ timestamp s2 = Some now
    /\ (truthy (error s0) = false ->
        extract_videos_node parser s1 = Return (structure_error msg)).
Proof.
  intros Hget Hstatus Hsoup Hmiss.
  unfold invoke, after_fetch, fetch_page_node.
  rewrite Hget. cbn [bind try_except]. rewrite Hstatus. cbn [bind try_except].
  set (s1 := apply_update s0 _).
  assert (Herr1 : error s1 = error s0) by reflexivity.
  unfold after_extract, extract_videos_node. rewrite Herr1.
  destruct (truthy (error s0)) eqn:Htruthy.
  - destruct (error s0) as [msg|] eqn:He; [|discriminate].
    exists s1. eexists. exists msg. cbn [bind].
    split; [reflexivity|]. split; [reflexivity|].
    cbn. rewrite He. repeat split; try discriminate.
    intros ->. cbn in Htruthy. discriminate.
  - destruct (extract_try_missing_landmark parser s1 soup Hsoup Hmiss)
      as (msg & Htry & Hmsg).
    rewrite Htry. cbn [bind try_except].
    exists s1. eexists. exists msg.
    split; [reflexivity|]. split; [reflexivity|].
    repeat split; auto.
    intros _. now rewrite Herr1, Htruthy, Htry.
Qed.

(** C5 on a run that fetches a page without the section header. *)
Lemma C5_witness :
  exists s2 msg,
    invoke Samples.get_ok Samples.t0
      (Samples.parser_giving Samples.page_without_header)
      Samples.initial_state = Return s2
    /\ trending_videos s2 = []
    /\ error s2 = Some msg
    /\ msg <> ""
    /\ timestamp s2 = Some Samples.t0.
Proof.
  destruct (C5_missing_landmark_is_structural_error
              Samples.get_ok Samples.t0
              (Samples.parser_giving Samples.page_without_header)
              Samples.initial_state
              (mkResponse 200 "OK" Samples.trends_url "<html>...</html>")
              (soup_of (Tag "[document]" [] Samples.page_without_header))
              eq_refl eq_refl eq_refl (or_introl eq_refl))
    as (s1 & s2 & msg & _ & Hrun & Hvideos & Herr & Hmsg & _ & Hts & _).
  exists s2, msg. repeat split; assumption.
Defined.

(** ** C6 *)

(** On well-formed entries numbered from [k + 1], with [k] records
    accumulated, the loop appends one record per entry, in order, with
    ranks [k + 1], [k + 2], ... *)
Lemma for_each_well_formed (items : list Element) :
  forall (k : nat) (l : Locals),
    List.length (videos l) = k ->
    (forall i item, nth_error items i = Some item ->
                    well_formed_entry (k + i) item) ->
    exists added rv,
      for_each items loop_body l = (Return tt, mkLocals (videos l ++ added) rv)
      /\ List.length added = List.length items
      /\ forall i item,
           nth_error items i = Some item ->
           exists video_link,
             find video_link_q item = Some video_link
             /\ nth_error added i
                = Some (record_of video_link (Z.of_nat (k + i) + 1)).
Proof.
  induction items as [|item rest IH]; intros k l Hlen Hwf.
  - exists [], (rank_var l). cbn. rewrite app_nil_r.
    destruct l; repeat split; auto.
    intros [|i] it H; discriminate.
  - destruct (Hwf 0 item eq_refl) as ((lk & Hlk) & Hrank).
    rewrite Nat.add_0_r in Hrank.
    assert (Hexpr : rank_expr item (videos l) = Return (Z.of_nat k + 1)%Z).
    { unfold rank_expr.
      destruct Hrank as [Hnone | (sp & Hsp & Hint)].
      - now rewrite Hnone, Hlen.
      - now rewrite Hsp. }
    rewrite for_each_cons, loop_body_eq, Hexpr, Hlk.
    set (l1 := mkLocals _ _).
    destruct (IH (S k) l1) as (added & rv & Hrun & Hladd & Hnth).
    + subst l1. cbn [videos]. rewrite length_app, Hlen. cbn. lia.
    + intros i it Hi. replace (S k + i) with (k + S i) by lia.
      now apply Hwf.
    + exists (record_of lk (Z.of_nat k + 1) :: added), rv.
      rewrite Hrun. subst l1. cbn [videos]. rewrite <- app_assoc.
      split; [reflexivity|]. split; [cbn; now rewrite Hladd|].
      intros [|i] it Hi.
      * cbn in Hi. injection Hi as <-. exists lk.
        rewrite Nat.add_0_r. now split.
      * cbn in Hi. destruct (Hnth i it Hi) as (lk' & Hlk' & Hrec).
        exists lk'. split; [assumption|].
        cbn [nth_error]. rewrite Hrec.
        now replace (S k + i) with (k + S i) by lia.
Qed.

(** C6: when the list has more than 20 entries and the first 20 are
    well formed (each has a link, and a rank label, if any, that reads
    its position), the node returns exactly 20 records, the record at
    position [k] being built from the entry at position [k] with rank
    [k + 1]; nothing is asked of the entries after the 20th. *)
Theorem C6_first_20_entries_in_document_order
    parser (state : WorkflowState) (video_list : Element) :
  truthy (error state) = false ->
  well_formed_markup parser state video_list ->
  20 < List.length (find_all video_item_q video_list) ->
  (forall i item,
      i < 20 ->
      nth_error (find_all video_item_q video_list) i = Some item ->
      well_formed_entry i item) ->
  exists vs,
    extract_videos_node parser state
    = Return (mkUpdate None (Some vs) None None)
    /\ List.length vs = 20
    /\ forall k,
         k < 20 ->
         exists item video_link,
           nth_error (find_all video_item_q video_list) k = Some item
           /\ find video_link_q item = Some video_link
           /\ nth_error vs k
              = Some (record_of video_link (Z.of_nat k + 1)).
Proof.
  intros Herr Hwf Hmore Hentries.
  unfold extract_videos_node. rewrite Herr.
  rewrite (extract_try_landmarks _ _ _ Hwf).
  set (all := find_all video_item_q video_list) in *. clearbody all.
  destruct (for_each_well_formed (firstn 20 all) 0 (mkLocals [] None) eq_refl)
    as (added & rv & Hrun & Hlen & Hnth).
  { intros i item Hi. rewrite nth_error_firstn in Hi.
    destruct (Nat.ltb_spec i 20); [|discriminate].
    now apply Hentries. }
  rewrite Hrun. cbn [videos app try_except].
  rewrite length_firstn, Nat.min_l in Hlen by lia.
  exists added. repeat split; auto.
  intros k Hk.
  destruct (nth_error all k) as [item|] eqn:Hitem.
  - destruct (Hnth k item) as (lk & Hlk & Hrec).
    + rewrite nth_error_firstn.
      destruct (Nat.ltb_spec k 20); [assumption | lia].
    + now exists item, lk.
  - apply nth_error_None in Hitem. lia.
Qed.

Lemma well_formed_entryb_sound (i : nat) (item : Element) :
  well_formed_entryb i item = true -> well_formed_entry i item.
Proof.
  unfold well_formed_entryb, well_formed_entry.
  intros H. apply andb_true_iff in H as [Hlink Hrank]. split.
  - destruct (find video_link_q item) as [lk|]; [now exists lk | discriminate].
  - destruct (find rank_span_q item) as [sp|]; [right | now left].
    exists sp. split; [reflexivity|].
    destruct (int (get_text_strip sp)) as [z|e]; [|discriminate].
    apply Z.eqb_eq in Hrank. now subst.
Qed.

Lemma well_formed_entries_from_sound (items : list Element) :
  forall k,
    well_formed_entries_from k items = true ->
    forall i item, nth_error items i = Some item ->
                   well_formed_entry (k + i) item.
Proof.
  induction items as [|it rest IH]; intros k H [|i] item Hi;
    try discriminate; cbn in H, Hi; apply andb_true_iff in H as [H1 H2].
  - injection Hi as <-. rewrite Nat.add_0_r.
    now apply well_formed_entryb_sound.
  - replace (k + S i) with (S k + i) by lia. now apply (IH (S k)).
Qed.

(** C6 on the page of 25 entries labelled 1 to 25. *)
Lemma C6_witness :
  exists vs,
    extract_videos_node (Samples.parser_giving Samples.page_of_25)
      Samples.fetched_state
    = Return (mkUpdate None (Some vs) None None)
    /\ List.length vs = 20.
Proof.
  destruct (C6_first_20_entries_in_document_order
              (Samples.parser_giving Samples.page_of_25)
              Samples.fetched_state
              (Samples.video_list_in_page (Samples.numbered_entries 25))
              eq_refl (sample_page_well_formed _))
    as (vs & Hrun & Hlen & _).
  - apply Nat.ltb_lt. vm_compute. reflexivity.
  - intros i item _.
    apply (well_formed_entries_from_sound _ 0).
    vm_compute. reflexivity.
  - exists vs. split; assumption.
Defined.

(** ** C7 *)

(** C7: for every entry with a link and an info paragraph in it, the
    record the iteration appends has an empty channel when the
    paragraph holds fewer than two medium-emphasis spans, and the
    stripped text of the second span (index 1) when it holds two or
    more. *)
Theorem C7_channel_is_second_medium_span
    (item video_link info_p : Element) (l l' : Locals) (v : TrendingVideo) :
  find video_link_q item = Some video_link ->
  find info_q video_link = Some info_p ->
  loop_body item l = (Return tt, l') ->
  videos l' = videos l ++ [v] ->
  (List.length (find_all channel_span_q info_p) < 2 -> channel v = "")
  /\ (2 <= List.length (find_all channel_span_q info_p) ->
      exists sp,
        nth_error (find_all channel_span_q info_p) 1 = Some sp
        /\ channel v = get_text_strip sp).
Proof.
  intros Hlink Hinfo Hrun Hv.
  rewrite loop_body_eq, Hlink in Hrun.
  assert (Hch : channel v = channel_of video_link).
  { destruct (rank_expr item (videos l)) as [r|e].
    - injection Hrun as <-. cbn [videos] in Hv.
      apply app_inv_head in Hv. injection Hv as <-. reflexivity.
    - destruct (rank_var l); [|discriminate].
      injection Hrun as <-.
      apply (f_equal (@List.length _)) in Hv.
      rewrite length_app in Hv. cbn in Hv. lia. }
  rewrite Hch. unfold channel_of. rewrite Hinfo.
  set (spans := find_all channel_span_q info_p). split; intros Hn.
  - destruct (Nat.leb_spec 2 (List.length spans)); [lia | reflexivity].
  - destruct (Nat.leb_spec 2 (List.length spans)); [|lia].
    destruct (nth_error spans 1) as [sp|] eqn:Hsp.
    + now exists sp.
    + apply nth_error_None in Hsp. lia.
Qed.

(** C7 on an entry whose info paragraph has one medium-emphasis span. *)
Lemma C7_witness :
  channel (record_of Samples.one_span_link_elt 7) = "".
Proof.
  apply (C7_channel_is_second_medium_span
           Samples.one_span_item Samples.one_span_link_elt
           Samples.one_span_info Samples.two_records
           (mkLocals (videos Samples.two_records
                      ++ [record_of Samples.one_span_link_elt 7]) (Some 7%Z))
           (record_of Samples.one_span_link_elt 7)
           eq_refl eq_refl eq_refl eq_refl).
  vm_compute. lia.
Defined.

(** ** C8 *)

(** C8: the extractor's answer is a function of the raw markup and of
    the incoming error alone: on two states that agree on both, whatever
    their other fields, it returns the same records in the same order
    and the same error. *)
Theorem C8_extraction_determined_by_markup_and_error
    parser (s s' : WorkflowState) :
  raw_html s = raw_html s' ->
  error s = error s' ->
  extract_videos_node parser s = extract_videos_node parser s'.
Proof.
  intros Hraw Herr.
  unfold extract_videos_node, extract_try. now rewrite Hraw, Herr.
Qed.

(** C8 on two states that differ in url, videos and timestamp only. *)
Lemma C8_witness :
  extract_videos_node
    (Samples.parser_giving (Samples.page Samples.entries_unlabelled))
    Samples.fetched_state
  = extract_videos_node
      (Samples.parser_giving (Samples.page Samples.entries_unlabelled))
      Samples.fetched_state_later.
Proof.
  apply (C8_extraction_determined_by_markup_and_error
           (Samples.parser_giving (Samples.page Samples.entries_unlabelled))
           Samples.fetched_state Samples.fetched_state_later
           eq_refl eq_refl).
Defined.

(** ** The shape of what the nodes return *)

(** [fetch_page_node] returns, and what it returns is one of its two
    dictionaries. *)
Lemma fetch_page_node_cases get now (s0 : WorkflowState) :
  (exists body,
      fetch_page_node get now s0
      = Return (mkUpdate (Some body) None None (Some now)))
  \/ (exists e,
        fetch_page_node get now s0
        = Return (mkUpdate None None
                    (Some ("Failed to fetch page: " ++ exc_str e)%string)
                    (Some now))).
Proof.
  unfold fetch_page_node.
  destruct (get (url s0)) as [response|e]; cbn.
  - destruct (raise_for_status response) as [[]|e]; cbn.
    + left. now eexists.
    + right. now exists e.
  - right. now exists e.
Qed.

Lemma extract_try_update parser (s : WorkflowState) (u : Update) :
  extract_try parser s = Return u -> extractor_update u.
Proof.
  unfold extract_try, extractor_update.
  destruct (BeautifulSoup parser (raw_html s)) as [soup|e]; cbn [bind];
    [|discriminate].
  assert (Herr : forall msg, msg <> "" ->
            Return (structure_error msg) = Return u ->
            upd_raw_html u = None /\ upd_timestamp u = None
            /\ exists vs, upd_trending_videos u = Some vs
                 /\ (upd_error u = None
                     \/ (vs = [] /\ exists m, upd_error u = Some m /\ m <> ""))).
  { intros msg Hmsg H. injection H as <-. cbn. repeat split.
    exists []. split; [reflexivity|]. right. split; [reflexivity|].
    now exists msg. }
  destruct (find all_header_q soup) as [h|];
    [| apply Herr; discriminate].
  destruct (find_parent all_section_q h) as [sec|];
    [| apply Herr; discriminate].
  destruct (find video_list_q sec) as [vl|];
    [| apply Herr; discriminate].
  destruct (for_each _ loop_body _) as [[[]|e] l]; [|discriminate].
  intros H. injection H as <-. cbn. repeat split.
  exists (videos l). split; [reflexivity | now left].
Qed.

(** [extract_videos_node] returns, and what it returns is a dictionary
    of the extractor; on a state that carries an error it has no key
    [error]. *)
Lemma extract_videos_node_cases parser (s : WorkflowState) :
  exists u,
    extract_videos_node parser s = Return u
    /\ extractor_update u
    /\ (truthy (error s) = true -> upd_error u = None).
Proof.
  unfold extract_videos_node.
  destruct (truthy (error s)) eqn:Htruthy.
  - eexists. split; [reflexivity|]. split; [|reflexivity].
    repeat split. exists []. split; [reflexivity | now left].
  - destruct (extract_try parser s) as [u|e] eqn:Htry; cbn [try_except].
    + exists u. split; [reflexivity|]. split; [|discriminate].
      now apply (extract_try_update parser s).
    + eexists. split; [reflexivity|]. split; [|discriminate].
      repeat split. exists []. split; [reflexivity|]. right.
      split; [reflexivity|]. eexists. split; [reflexivity | discriminate].
Qed.

(** ** C9 *)

(** C9: in every run both nodes return, and with [s1] the state after
    the fetch and [s2] the state after the extraction: the url never
    changes; the fetch leaves the videos alone and clears neither the
    markup nor the error of the initial state, and sets the timestamp;
    the extraction leaves the markup and the timestamp as the fetch
    left them and does not clear the error; and when the fetch set the
    error, the extraction does not set it again, so the error is set at
    most once and stays as first set. *)
Theorem C9_state_fields_are_never_cleared get now parser (s0 : WorkflowState) :
  exists u1 u2 s1 s2,
    fetch_page_node get now s0 = Return u1
    /\ s1 = apply_update s0 u1
    /\ extract_videos_node parser s1 = Return u2
    /\ s2 = apply_update s1 u2
    /\ invoke get now parser s0 = Return s2
    /\ (url s1 = url s0 /\ url s2 = url s0)
    /\ trending_videos s1 = trending_videos s0
    /\ (raw_html s0 <> None -> raw_html s1 <> None)
    /\ (error s0 <> None -> error s1 <> None)
    /\ timestamp s1 = Some now
    /\ raw_html s2 = raw_html s1
    /\ timestamp s2 = timestamp s1
    /\ (error s1 <> None -> error s2 <> None)
    /\ (upd_error u1 <> None -> upd_error u2 = None /\ error s2 = error s1)
    /\ (upd_error u1 = None \/ upd_error u2 = None).
Proof.
  destruct (fetch_page_node_cases get now s0) as [(body & Hf) | (e & Hf)].
  - set (u1 := mkUpdate (Some body) None None (Some now)) in *.
    destruct (extract_videos_node_cases parser (apply_update s0 u1))
      as (u2 & Hx & (Hraw & Hts & vs & Hvs & Herr) & _).
    exists u1, u2, (apply_update s0 u1),
      (apply_update (apply_update s0 u1) u2).
    split; [exact Hf|]. split; [reflexivity|].
    split; [exact Hx|]. split; [reflexivity|].
    split.
    { unfold invoke, after_fetch, after_extract.
      rewrite Hf. cbn [bind]. now rewrite Hx. }
    unfold apply_update. cbn. rewrite Hraw, Hts.
    repeat split; try discriminate; auto;
      intros; destruct (upd_error u2); congruence.
  - set (u1 := mkUpdate None None
                 (Some ("Failed to fetch page: " ++ exc_str e)%string)
                 (Some now)) in *.
    destruct (extract_videos_node_cases parser (apply_update s0 u1))
      as (u2 & Hx & (Hraw & Hts & vs & Hvs & Herr) & Hnone).
    specialize (Hnone eq_refl).
    exists u1, u2, (apply_update s0 u1),
      (apply_update (apply_update s0 u1) u2).
    split; [exact Hf|]. split; [reflexivity|].
    split; [exact Hx|]. split; [reflexivity|].
    split.
    { unfold invoke, after_fetch, after_extract.
      rewrite Hf. cbn [bind]. now rewrite Hx. }
    unfold apply_update. cbn. rewrite Hraw, Hts, Hnone.
    repeat split; try discriminate; auto.
Qed.

(** ** C10 *)

(** C10: on every state the extractor returns a dictionary, never an
    exception, and a dictionary that has an error has an empty list;
    when the state carries no error and the markup is [None] or the
    parser rejects it, the constructor raises and the extractor returns
    the general extraction error with an empty list. *)
Theorem C10_extractor_total_and_failure_atomic parser (s : WorkflowState) :
  (exists u vs,
      extract_videos_node parser s = Return u
      /\ upd_trending_videos u = Some vs
      /\ (upd_error u <> None -> vs = []))
  /\ (raw_html s = None ->
      exists e, BeautifulSoup parser (raw_html s) = Raise e)
  /\ (forall markup e,
        raw_html s = Some markup -> parser markup = Raise e ->
        BeautifulSoup parser (raw_html s) = Raise e)
  /\ (forall e,
        truthy (error s) = false ->
        BeautifulSoup parser (raw_html s) = Raise e ->
        extract_videos_node parser s
        = Return (mkUpdate None (Some [])
                    (Some ("Failed to extract videos: " ++ exc_str e)%string)
                    None)).
Proof.
  split; [|split; [|split]].
  - destruct (extract_videos_node_cases parser s)
      as (u & Hx & (_ & _ & vs & Hvs & Herr) & _).
    exists u, vs. repeat split; auto.
    intros Hset. destruct Herr as [Hnone | (Hnil & _)]; congruence.
  - intros ->. eexists. reflexivity.
  - intros markup e -> Hparse. cbn. now rewrite Hparse.
  - intros e Herr Hsoup.
    unfold extract_videos_node, extract_try. now rewrite Herr, Hsoup.
Qed.

(** * Further properties of the nodes and of the notebook's cells *)

Import Entries.

(** ** The loop once [rank] is bound *)

Lemma rank_expr_label_ok (item : Element) (vs : list TrendingVideo) :
  label_ok item = true -> exists r, rank_expr item vs = Return r.
Proof.
  unfold label_ok, rank_expr.
  destruct (find rank_span_q item) as [sp|]; [|now eexists].
  destruct (int (get_text_strip sp)) as [r|e]; [now exists r | discriminate].
Qed.

Lemma rank_expr_label_rejected (item : Element) (vs : list TrendingVideo) :
  label_ok item = false -> exists e, rank_expr item vs = Raise e.
Proof.
  unfold label_ok, rank_expr.
  destruct (find rank_span_q item) as [sp|]; [|discriminate].
  destruct (int (get_text_strip sp)) as [r|e]; [discriminate | now exists e].
Qed.

Lemma rank_expr_label (item rank_span : Element) (vs : list TrendingVideo) (r : Z) :
  rank_expr item vs = Return r ->
  find rank_span_q item = Some rank_span ->
  int (get_text_strip rank_span) = Return r.
Proof. unfold rank_expr. intros H Hs. now rewrite Hs in H. Qed.

(** With [rank] bound the loop never raises, and the records it appends
    are those of the entries whose label is in order and that have a
    link, one each, in the order of the entries. *)
Lemma for_each_rank_bound (items : list Element) :
  forall (l : Locals) (r0 : Z),
    rank_var l = Some r0 ->
    exists added r1,
      for_each items loop_body l
      = (Return tt, mkLocals (videos l ++ added) (Some r1))
      /\ Forall2 built_from added (filter emitted items).
Proof.
  induction items as [|item rest IH]; intros [vs rv] r0 Hr; cbn in Hr; subst rv.
  - exists [], r0. cbn. rewrite app_nil_r. split; [reflexivity | constructor].
  - rewrite for_each_cons, loop_body_eq. cbn [videos rank_var filter].
    unfold emitted at 1.
    destruct (label_ok item) eqn:Hlabel.
    + destruct (rank_expr_label_ok item vs Hlabel) as (r & Hexpr).
      rewrite Hexpr. unfold has_link.
      destruct (find video_link_q item) as [lk|] eqn:Hlk; cbn [andb].
      * destruct (IH (mkLocals (vs ++ [record_of lk r]) (Some r)) r eq_refl)
          as (added & r1 & Hrun & Hall).
        exists (record_of lk r :: added), r1. rewrite Hrun.
        cbn [videos]. rewrite <- app_assoc. split; [reflexivity|].
        constructor; [|assumption].
        exists lk. repeat split; auto.
        intros sp Hsp. cbn [rank record_of].
        now apply (rank_expr_label item sp vs).
      * rewrite app_nil_r.
        destruct (IH (mkLocals vs (Some r)) r eq_refl)
          as (added & r1 & Hrun & Hall).
        exists added, r1. now rewrite Hrun.
    + destruct (rank_expr_label_rejected item vs Hlabel) as (e & Hexpr).
      rewrite Hexpr. cbn [andb].
      destruct (IH (mkLocals vs (Some r0)) r0 eq_refl)
        as (added & r1 & Hrun & Hall).
      exists added, r1. now rewrite Hrun.
Qed.

(** The loop from the start: it raises exactly when the first entry has
    a label that [int] rejects. *)
Lemma for_each_from_start (items : list Element) :
  (first_label_ok items = true ->
   exists vs rv,
     for_each items loop_body (mkLocals [] None) = (Return tt, mkLocals vs rv)
     /\ Forall2 built_from vs (filter emitted items))
  /\ (first_label_ok items = false ->
      for_each items loop_body (mkLocals [] None)
      = (Raise (UnboundLocalError "rank"), mkLocals [] None)).
Proof.
  destruct items as [|item rest]; cbn [first_label_ok].
  - split; [|discriminate]. intros _. exists [], None. split; [reflexivity | constructor].
  - rewrite for_each_cons, loop_body_eq. cbn [videos rank_var].
    split; intros Hlabel.
    + destruct (rank_expr_label_ok item [] Hlabel) as (r & Hexpr).
      rewrite Hexpr.
      set (l1 := mkLocals _ _).
      destruct (for_each_rank_bound rest l1 r eq_refl)
        as (added & r1 & Hrun & Hall).
      rewrite Hrun. eexists. eexists. split; [reflexivity|].
      subst l1. cbn [videos filter]. unfold emitted at 1, has_link.
      rewrite Hlabel.
      destruct (find video_link_q item) as [lk|] eqn:Hlk; cbn [andb app].
      * constructor; [|assumption].
        exists lk. repeat split; auto.
        intros sp Hsp. now apply (rank_expr_label item sp []).
      * assumption.
    + destruct (rank_expr_label_rejected item [] Hlabel) as (e & Hexpr).
      now rewrite Hexpr.
Qed.

(** X1: on a markup with the landmarks and no incoming error, the node
    reports the failure of the loop's handler (an empty list and the
    message on the unbound [rank]) exactly when the first of the first
    20 entries has a rank label that [int] rejects; in every other case
    it returns a list and no error, whatever the later entries are. *)
Theorem extract_error_iff_first_label_rejected
    parser (state : WorkflowState) (video_list : Element) :
  truthy (error state) = false ->
  well_formed_markup parser state video_list ->
  (first_label_ok (firstn 20 (find_all video_item_q video_list)) = true ->
   exists vs,
     extract_videos_node parser state
     = Return (mkUpdate None (Some vs) None None))
  /\ (first_label_ok (firstn 20 (find_all video_item_q video_list)) = false ->
      extract_videos_node parser state
      = Return (mkUpdate None (Some []) (Some rank_unbound_error) None)).
Proof.
  intros Herr Hwf. unfold extract_videos_node. rewrite Herr.
  rewrite (extract_try_landmarks _ _ _ Hwf).
  set (items := firstn 20 (find_all video_item_q video_list)). clearbody items.
  destruct (for_each_from_start items) as [Hok Hbad]. split; intros Hfirst.
  - destruct (Hok Hfirst) as (vs & rv & Hrun & _). rewrite Hrun.
    now exists vs.
  - now rewrite (Hbad Hfirst).
Qed.

(** The property on the page whose second entry has the label [abc]. *)
Lemma extract_error_iff_first_label_rejected_witness :
  exists vs,
    extract_videos_node
      (Samples.parser_giving (Samples.page Samples.entries_bad_second))
      Samples.fetched_state
    = Return (mkUpdate None (Some vs) None None).
Proof.
  destruct (extract_error_iff_first_label_rejected
              (Samples.parser_giving (Samples.page Samples.entries_bad_second))
              Samples.fetched_state
              (Samples.video_list_in_page Samples.entries_bad_second)
              eq_refl (sample_page_well_formed _)) as [Hok _].
  apply Hok. reflexivity.
Defined.

(** X2: on a markup with the landmarks and no incoming error, when the
    first entry's label is in order, the records returned are those of
    the entries, among the first 20, that have a link and a label that
    is absent or accepted by [int]: one record per such entry, in
    document order, built from its link, with the number of its label
    as rank when it has a label. Entries without a link and entries
    with a rejected label leave no record. *)
Theorem records_are_the_emitted_entries_in_order
    parser (state : WorkflowState) (video_list : Element) :
  truthy (error state) = false ->
  well_formed_markup parser state video_list ->
  first_label_ok (firstn 20 (find_all video_item_q video_list)) = true ->
  exists vs,
    extract_videos_node parser state
    = Return (mkUpdate None (Some vs) None None)
    /\ Forall2 built_from vs
         (filter emitted (firstn 20 (find_all video_item_q video_list)))
    /\ List.length vs
       = List.length
           (filter emitted (firstn 20 (find_all video_item_q video_list))).
Proof.
  intros Herr Hwf Hfirst. unfold extract_videos_node. rewrite Herr.
  rewrite (extract_try_landmarks _ _ _ Hwf).
  set (items := firstn 20 (find_all video_item_q video_list)) in *.
  clearbody items.
  destruct (for_each_from_start items) as [Hok _].
  destruct (Hok Hfirst) as (vs & rv & Hrun & Hall). rewrite Hrun.
  exists vs. repeat split; auto.
  now apply Forall2_length in Hall.
Qed.

(** The property on a page of four entries: the second has no link, the
    third a rejected label; two records come out. *)
Lemma records_are_the_emitted_entries_in_order_witness :
  exists vs,
    extract_videos_node
      (Samples.parser_giving (Samples.page MoreSamples.entries_mixed))
      Samples.fetched_state
    = Return (mkUpdate None (Some vs) None None)
    /\ List.length vs = 2.
Proof.
  destruct (records_are_the_emitted_entries_in_order
              (Samples.parser_giving (Samples.page MoreSamples.entries_mixed))
              Samples.fetched_state
              (Samples.video_list_in_page MoreSamples.entries_mixed)
              eq_refl (sample_page_well_formed _) eq_refl)
    as (vs & Hrun & _ & Hlen).
  exists vs. split; [exact Hrun|]. rewrite Hlen. reflexivity.
Defined.

(** ** Entries without rank labels *)

Lemma ranks_from_S (k n : nat) :
  ranks_from k (S n) = Z.of_nat (S k) :: ranks_from (S k) n.
Proof.
  unfold ranks_from. cbn [List.seq map].
  rewrite <- seq_shift, map_map. f_equal.
  - f_equal. lia.
  - apply map_ext. intros i. f_equal. lia.
Qed.

Lemma for_each_unlabelled (items : list Element) :
  forall l : Locals,
    forallb unlabelled items = true ->
    exists added rv,
      for_each items loop_body l = (Return tt, mkLocals (videos l ++ added) rv)
      /\ map rank added
         = ranks_from (List.length (videos l)) (List.length added)
      /\ List.length added = List.length (filter has_link items).
Proof.
  induction items as [|item rest IH]; intros [vs rv] Hall.
  - exists [], rv. cbn. rewrite app_nil_r. auto.
  - cbn [forallb] in Hall. apply andb_true_iff in Hall as [Hitem Hrest].
    rewrite for_each_cons, loop_body_eq. cbn [videos rank_var filter].
    unfold rank_expr, has_link at 1. unfold unlabelled in Hitem.
    destruct (find rank_span_q item); [discriminate|].
    destruct (find video_link_q item) as [lk|].
    + set (r := (Z.of_nat (List.length vs) + 1)%Z).
      destruct (IH (mkLocals (vs ++ [record_of lk r]) (Some r)) Hrest)
        as (added & rv1 & Hrun & Hranks & Hlen).
      exists (record_of lk r :: added), rv1. rewrite Hrun.
      cbn [videos] in *. rewrite <- app_assoc. split; [reflexivity|].
      split; [|cbn; now rewrite Hlen].
      cbn [map List.length]. rewrite ranks_from_S, Hranks.
      rewrite length_app. cbn [List.length rank record_of].
      f_equal; [subst r; lia|]. f_equal. lia.
    + rewrite app_nil_r.
      destruct (IH (mkLocals vs (Some (Z.of_nat (List.length vs) + 1)%Z)) Hrest)
        as (added & rv1 & Hrun & Hranks & Hlen).
      exists added, rv1. now rewrite Hrun.
Qed.

(** X3: on a markup with the landmarks and no incoming error, when none
    of the first 20 entries has a rank label, the node returns one
    record per entry that has a link and no error, and the ranks of the
    records are 1, 2, ..., in order: the position among the records,
    not the position among the entries. *)
Theorem unlabelled_entries_get_consecutive_ranks
    parser (state : WorkflowState) (video_list : Element) :
  truthy (error state) = false ->
  well_formed_markup parser state video_list ->
  forallb unlabelled (firstn 20 (find_all video_item_q video_list)) = true ->
  exists vs,
    extract_videos_node parser state
    = Return (mkUpdate None (Some vs) None None)
    /\ map rank vs = ranks_from 0 (List.length vs)
    /\ List.length vs
       = List.length
           (filter has_link (firstn 20 (find_all video_item_q video_list))).
Proof.
  intros Herr Hwf Hall. unfold extract_videos_node. rewrite Herr.
  rewrite (extract_try_landmarks _ _ _ Hwf).
  set (items := firstn 20 (find_all video_item_q video_list)) in *.
  clearbody items.
  destruct (for_each_unlabelled items (mkLocals [] None) Hall)
    as (added & rv & Hrun & Hranks & Hlen).
  rewrite Hrun. exists added. auto.
Qed.

(** The property on the page of three entries without labels, the
    second without a link: ranks 1 and 2. *)
Lemma unlabelled_entries_get_consecutive_ranks_witness :
  exists vs,
    extract_videos_node
      (Samples.parser_giving (Samples.page Samples.entries_unlabelled))
      Samples.fetched_state
    = Return (mkUpdate None (Some vs) None None)
    /\ map rank vs = [1%Z; 2%Z].
Proof.
  destruct (unlabelled_entries_get_consecutive_ranks
              (Samples.parser_giving (Samples.page Samples.entries_unlabelled))
              Samples.fetched_state
              (Samples.video_list_in_page Samples.entries_unlabelled)
              eq_refl (sample_page_well_formed _) eq_refl)
    as (vs & Hrun & Hranks & Hlen).
  exists vs. split; [exact Hrun|].
  rewrite Hranks, Hlen. reflexivity.
Defined.

(** ** The fields of a record *)

(** X4: the record an iteration appends for an entry takes its fields
    from inside the entry's link: [video_url] is the link's [href] or
    empty; [title] is the stripped text of the title element, which may
    be empty, and the placeholder only when there is no title element;
    [thumbnail_url] is the [src] of the thumbnail image, and empty when
    there is no such image or it has no [src]. *)
Theorem record_fields_come_from_the_link
    (item video_link : Element) (l l' : Locals) (v : TrendingVideo) :
  find video_link_q item = Some video_link ->
  loop_body item l = (Return tt, l') ->
  videos l' = videos l ++ [v] ->
  video_url v = get video_link "href" ""
  /\ (find title_q video_link = None -> title v = "No title")
  /\ (forall title_elem,
        find title_q video_link = Some title_elem ->
        title v = get_text_strip title_elem)
  /\ (find thumbnail_q video_link = None -> thumbnail_url v = "")
  /\ (forall thumbnail_img,
        find thumbnail_q video_link = Some thumbnail_img ->
        thumbnail_url v = get thumbnail_img "src" "").
Proof.
  intros Hlink Hrun Hv.
  rewrite loop_body_eq, Hlink in Hrun.
  assert (Hrec : exists r, v = record_of video_link r).
  { destruct (rank_expr item (videos l)) as [r|e].
    - injection Hrun as <-. cbn [videos] in Hv.
      apply app_inv_head in Hv. injection Hv as <-. now exists r.
    - destruct (rank_var l); [|discriminate].
      injection Hrun as <-.
      apply (f_equal (@List.length _)) in Hv.
      rewrite length_app in Hv. cbn in Hv. lia. }
  destruct Hrec as (r & ->). cbn [record_of video_url title thumbnail_url].
  unfold title_of, thumbnail_of.
  split; [reflexivity|]. split; [now intros ->|].
  split; [now intros t ->|]. split; [now intros ->|]. now intros i ->.
Qed.

(** The property on an entry whose title element is blank and whose
    image has no [src]: both fields are empty. *)
Lemma record_fields_come_from_the_link_witness :
  title (record_of MoreSamples.blank_title_link_elt 4) = ""
  /\ thumbnail_url (record_of MoreSamples.blank_title_link_elt 4) = "".
Proof.
  destruct (record_fields_come_from_the_link
              MoreSamples.blank_title_item MoreSamples.blank_title_link_elt
              Samples.two_records
              (mkLocals (videos Samples.two_records
                         ++ [record_of MoreSamples.blank_title_link_elt 4])
                        (Some 4%Z))
              (record_of MoreSamples.blank_title_link_elt 4)
              eq_refl eq_refl eq_refl)
    as (_ & _ & Htitle & _ & Hthumb).
  split.
  - rewrite (Htitle _ eq_refl). reflexivity.
  - rewrite (Hthumb _ eq_refl). reflexivity.
Defined.

(** ** Running the extractor again *)

Lemma extract_videos_node_reads (parser : string -> result (list PageElement))
    (s s' : WorkflowState) :
  raw_html s = raw_html s' -> error s = error s' ->
  extract_videos_node parser s = extract_videos_node parser s'.
Proof.
  intros Hraw Herr. unfold extract_videos_node, extract_try.
  now rewrite Hraw, Herr.
Qed.

(** X5: the extraction stage is idempotent on the state: applied to the
    state it produced, it produces that state again. A state on which
    it reported an error keeps that error and its empty list (the second
    pass short-circuits on the error); a state on which it returned
    records gets the same records. *)
Theorem extraction_is_idempotent_on_state parser (s s' : WorkflowState) :
  after_extract parser s = Return s' ->
  after_extract parser s' = Return s'.
Proof.
  unfold after_extract.
  destruct (extract_videos_node_cases parser s)
    as (u & Hx & (Hraw & Hts & vs & Hvs & Herr) & _).
  rewrite Hx. cbn [bind]. intros H. injection H as <-.
  destruct u as [uraw uvs uerr uts]. cbn in Hraw, Hts, Hvs, Herr. subst.
  destruct Herr as [-> | (-> & msg & -> & Hmsg)].
  - rewrite (extract_videos_node_reads parser
               (apply_update s (mkUpdate None (Some vs) None None)) s
               eq_refl eq_refl), Hx.
    reflexivity.
  - unfold extract_videos_node. cbn.
    destruct (String.eqb_spec msg ""); [contradiction|]. reflexivity.
Qed.

(** The property on the fetched page without the section header. *)
Lemma extraction_is_idempotent_on_state_witness :
  after_extract (Samples.parser_giving Samples.page_without_header)
    (mkState Samples.trends_url (Some "<html>...</html>") []
       (Some "Could not find the 'All' section header") (Some Samples.t0))
  = Return
      (mkState Samples.trends_url (Some "<html>...</html>") []
         (Some "Could not find the 'All' section header") (Some Samples.t0)).
Proof.
  apply (extraction_is_idempotent_on_state
           (Samples.parser_giving Samples.page_without_header)
           Samples.fetched_state).
  reflexivity.
Defined.

(** ** A whole run *)

Lemma extract_videos_node_at_most_20 parser (s : WorkflowState) :
  exists u vs,
    extract_videos_node parser s = Return u
    /\ upd_raw_html u = None /\ upd_timestamp u = None
    /\ upd_trending_videos u = Some vs
    /\ List.length vs <= 20.
Proof.
  unfold extract_videos_node.
  destruct (truthy (error s)).
  { eexists. exists []. cbn. repeat split. lia. }
  unfold extract_try.
  destruct (BeautifulSoup parser (raw_html s)) as [soup|e]; cbn [bind try_except];
    [| eexists; exists []; cbn; repeat split; lia].
  destruct (find all_header_q soup) as [h|];
    [| eexists; exists []; cbn; repeat split; lia].
  destruct (find_parent all_section_q h) as [sec|];
    [| eexists; exists []; cbn; repeat split; lia].
  destruct (find video_list_q sec) as [vl|];
    [| eexists; exists []; cbn; repeat split; lia].
  pose proof (firstn_le_length 20 (find_all video_item_q vl)) as H20.
  set (items := firstn 20 (find_all video_item_q vl)) in *. clearbody items.
  destruct (for_each_added items (mkLocals [] None))
    as (added & Hv & Hlen & _).
  destruct (for_each items loop_body (mkLocals [] None)) as [[[]|e] l];
    cbn [snd videos app try_except] in *.
  - eexists. exists (videos l). cbn. repeat split. rewrite Hv. lia.
  - eexists. exists []. cbn. repeat split. lia.
Qed.

(** Both nodes return: the fetch sets the timestamp and leaves the
    videos, the extractor sets at most 20 videos and leaves the markup
    and the timestamp. *)
Lemma both_nodes_return get now parser (s : WorkflowState) :
  exists u1 u2 vs,
    fetch_page_node get now s = Return u1
    /\ upd_trending_videos u1 = None
    /\ upd_timestamp u1 = Some now
    /\ extract_videos_node parser (apply_update s u1) = Return u2
    /\ upd_raw_html u2 = None /\ upd_timestamp u2 = None
    /\ upd_trending_videos u2 = Some vs
    /\ List.length vs <= 20.
Proof.
  destruct (fetch_page_node_cases get now s) as [(body & Hf) | (e & Hf)];
    rewrite Hf;
    match goal with |- context [Return ?u = _] =>
      destruct (extract_videos_node_at_most_20 parser (apply_update s u))
        as (u2 & vs & Hx & Hraw & Hts & Hvs & Hlen);
      exists u, u2, vs; repeat split; assumption
    end.
Qed.

Lemma invoke_of_updates get now parser (s : WorkflowState) (u1 u2 : Update) :
  fetch_page_node get now s = Return u1 ->
  extract_videos_node parser (apply_update s u1) = Return u2 ->
  invoke get now parser s = Return (apply_update (apply_update s u1) u2).
Proof.
  intros Hf Hx. unfold invoke, after_fetch, after_extract.
  rewrite Hf. cbn [bind]. now rewrite Hx.
Qed.

(** X6: every run of the graph returns a state, whatever the request,
    the clock and the parser answer and whatever the initial state
    holds: no exception leaves [invoke]. The final state has the url of
    the initial state, the time of the fetch as timestamp, and at most
    20 videos; videos of the initial state are always replaced. *)
Theorem every_run_returns_at_most_20_videos
    get now parser (s0 : WorkflowState) :
  exists s2,
    invoke get now parser s0 = Return s2
    /\ url s2 = url s0
    /\ timestamp s2 = Some now
    /\ List.length (trending_videos s2) <= 20
    /\ (forall s0',
          url s0' = url s0 -> raw_html s0' = raw_html s0 ->
          error s0' = error s0 ->
          exists s2',
            invoke get now parser s0' = Return s2'
            /\ trending_videos s2' = trending_videos s2).
Proof.
  destruct (both_nodes_return get now parser s0)
    as (u1 & u2 & vs & Hf & Hv1 & Ht1 & Hx & Hraw & Hts & Hvs & Hlen).
  exists (apply_update (apply_update s0 u1) u2).
  split; [now apply invoke_of_updates|].
  split; [reflexivity|].
  split; [cbn; now rewrite Hts, Ht1|].
  split; [cbn; now rewrite Hvs|].
  intros s0' Hurl Hraw0 Herr0.
  exists (apply_update (apply_update s0' u1) u2). split.
  - apply invoke_of_updates.
    + rewrite <- Hf. unfold fetch_page_node. now rewrite Hurl.
    + rewrite <- Hx. apply extract_videos_node_reads;
        unfold apply_update; cbn; now rewrite ?Hraw0, ?Herr0.
  - cbn. now rewrite Hvs.
Qed.

(** ** The fetch by status code *)

(** X7: when the request is answered, the fetch reports an error
    exactly for the status codes 400 to 599, with a message that names
    the status, its kind (client or server error), the reason and the
    url; for every other status, below 400 or from 600, the body of the
    response is stored as the raw markup and no error is set. The
    timestamp is set in both cases. *)
Theorem fetch_stores_body_unless_status_4xx_5xx
    get now (s : WorkflowState) (response : Response) :
  get (url s) = Return response ->
  ((status_code response < 400 \/ 600 <= status_code response)%Z ->
   fetch_page_node get now s
   = Return (mkUpdate (Some (text response)) None None (Some now)))
  /\ ((400 <= status_code response < 600)%Z ->
      fetch_page_node get now s
      = Return (mkUpdate None None
          (Some ("Failed to fetch page: "
                 ++ str_of_Z (status_code response)
                 ++ (if (status_code response <? 500)%Z
                     then " Client Error: " else " Server Error: ")
                 ++ reason response ++ " for url: "
                 ++ response_url response)%string)
          (Some now))).
Proof.
  intros Hget. unfold fetch_page_node, raise_for_status. rewrite Hget.
  cbn [bind]. split; intros Hstatus.
  - destruct (Z.leb_spec 400 (status_code response));
      destruct (Z.ltb_spec (status_code response) 500);
      destruct (Z.leb_spec 500 (status_code response));
      destruct (Z.ltb_spec (status_code response) 600);
      cbn; try reflexivity; lia.
  - destruct (Z.leb_spec 400 (status_code response));
      destruct (Z.ltb_spec (status_code response) 500);
      destruct (Z.leb_spec 500 (status_code response));
      destruct (Z.ltb_spec (status_code response) 600);
      cbn; try reflexivity; lia.
Qed.

(** The property on a response with status 304: its body is stored. *)
Lemma fetch_stores_body_unless_status_4xx_5xx_witness :
  fetch_page_node (MoreSamples.get_status 304) Samples.t0 Samples.initial_state
  = Return (mkUpdate (Some "body") None None (Some Samples.t0)).
Proof.
  destruct (fetch_stores_body_unless_status_4xx_5xx
              (MoreSamples.get_status 304) Samples.t0 Samples.initial_state
              (mkResponse 304 "" Samples.trends_url "body") eq_refl)
    as [Hstore _].
  apply Hstore. left. reflexivity.
Defined.

(** ** The cell that tests the workflow *)

Import Notebook.

Lemma length_flat_map_print_video (vs : list TrendingVideo) :
  List.length (flat_map print_video vs)
  = 2 * List.length vs + count_with_url vs.
Proof.
  unfold count_with_url.
  induction vs as [|v vs IH]; [reflexivity|].
  cbn [flat_map filter]. rewrite length_app, IH.
  unfold print_video.
  destruct (truthy (Some (video_url v))); cbn [List.length app]; lia.
Qed.

Lemma count_with_url_le (vs : list TrendingVideo) :
  count_with_url vs <= List.length vs.
Proof. unfold count_with_url. apply filter_length_le. Qed.

(** X8: in the cell that tests the workflow, [app.invoke] on the
    initial state always returns, and the statements that follow it
    print six texts of heading, then for every video of the final
    state, and not only for ten of them, its rank and title and an
    empty line, with a line for the url in between exactly when the url
    is not empty: with [n] videos of which [m] have a url, [6 + 2 n + m]
    texts, [n] being at most 20. The texts the extractor's handler
    prints during [app.invoke] come before these and are not counted. *)
Theorem test_cell_report_lists_every_video get now parser :
  exists result,
    invoke get now parser initial_state = Return result
    /\ List.length (print_result result)
       = 6 + 2 * List.length (trending_videos result)
         + count_with_url (trending_videos result)
    /\ count_with_url (trending_videos result)
       <= List.length (trending_videos result)
    /\ List.length (trending_videos result) <= 20
    /\ forall k v,
         nth_error (trending_videos result) k = Some v ->
         In (str_of_Z (rank v) ++ ". " ++ title v)%string (print_result result)
         /\ (video_url v <> "" ->
             In ("   URL: " ++ video_url v)%string (print_result result)).
Proof.
  destruct (both_nodes_return get now parser initial_state)
    as (u1 & u2 & vs & Hf & _ & _ & Hx & _ & _ & Hvs & Hlen20).
  pose proof (invoke_of_updates get now parser initial_state u1 u2 Hf Hx) as Hrun.
  set (result := apply_update (apply_update initial_state u1) u2) in *.
  assert (Hlen : List.length (trending_videos result) <= 20).
  { subst result. cbn. now rewrite Hvs. }
  clearbody result.
  exists result. split; [exact Hrun|]. split.
  { unfold print_result. rewrite length_app, length_flat_map_print_video.
    cbn [List.length]. lia. }
  split; [apply count_with_url_le|]. split; [assumption|].
  intros k v Hk. apply nth_error_In in Hk.
  assert (Hsub : forall t, In t (print_video v) -> In t (print_result result)).
  { intros t Ht. unfold print_result. apply in_or_app. right.
    apply in_flat_map. now exists v. }
  split.
  - apply Hsub. left. reflexivity.
  - intros Hurl. apply Hsub. unfold print_video. right.
    cbn [truthy]. destruct (String.eqb_spec (video_url v) "");
      [contradiction|]. left. reflexivity.
Qed.

(** ** The cell that loads the environment *)









(** ** Which span is the rank label *)

Lemma mem_In (s : string) (l : list string) : In s l -> mem s l = true.
Proof.
  intros H. unfold mem. apply existsb_exists. exists s.
  split; [assumption | apply String.eqb_refl].
Qed.

(** X10: the rank label of an entry is the first span, anywhere below
    the entry, that carries at least one of the four classes of the
    search; so the fallback to the position applies only to an entry
    that holds no such span at all: as soon as some span below the
    entry has one of these classes among its class tokens, the search
    for the rank label finds a span. *)
Theorem rank_label_is_any_span_with_one_class
    (item sp : Element) (d : list (string * string))
    (contents : list PageElement) (value c : string) :
  In sp (descendants item) ->
  node sp = Tag "span" d contents ->
  lookup "class" d = Some value ->
  In c (split_ws value) ->
  In c ["text-slate-400"; "font-semibold"; "text-xl"; "p-4"] ->
  exists rank_span,
    find rank_span_q item = Some rank_span
    /\ In rank_span (descendants item)
    /\ matches_elt rank_span_q rank_span = true.
Proof.
  intros Hin Hnode Hclass Htok Hc.
  assert (Hm : matches_elt rank_span_q sp = true).
  { unfold matches_elt, matches. rewrite Hnode. cbn [s_name s_attrs rank_span_q].
    cbn [String.eqb Ascii.eqb Bool.eqb andb forallb fst snd].
    unfold attr_matches. rewrite Hclass. cbn [attr_tokens String.eqb Ascii.eqb Bool.eqb].
    rewrite andb_true_r. apply orb_true_iff. left.
    apply existsb_exists. exists c. split; [assumption|].
    now apply mem_In. }
  unfold find.
  destruct (List.find (matches_elt rank_span_q) (descendants item))
    as [found|] eqn:Hfind.
  - exists found. apply find_some in Hfind. tauto.
  - apply (find_none _ _ Hfind) in Hin. congruence.
Qed.

(** The property on an entry without a rank label whose title holds a
    span of class [font-semibold]: that span is taken as the label. *)
Lemma rank_label_is_any_span_with_one_class_witness :
  exists rank_span,
    find rank_span_q MoreSamples.badge_item = Some rank_span
    /\ In rank_span (descendants MoreSamples.badge_item).
Proof.
  destruct (rank_label_is_any_span_with_one_class
              MoreSamples.badge_item MoreSamples.badge_elt
              [("class", "badge font-semibold")] [NavigableString "New"]
              "badge font-semibold" "font-semibold")
    as (rank_span & Hfind & Hin & _).
  - vm_compute. right. right. left. reflexivity.
  - reflexivity.
  - reflexivity.
  - vm_compute. right. left. reflexivity.
  - right. left. reflexivity.
  - exists rank_span. split; assumption.
Defined.
